(** * Validation scripts of the Ansible project: a Rocq model

    The four scripts under [scripts/] are embedded function by function:
    - [validate_idempotency.py]  as [Module validate_idempotency],
    - [check_darwin_guards.py]   as [Module check_darwin_guards],
    - [validate_models.py]       as [Module validate_models],
    - [validate_structure.py]    as [Module validate_structure].

    Conventions of the embedding.
    - A Python [str] is a [string]; a character is a code point below 256
      (ASCII and Latin-1), which is what [ascii] holds.  Text containing
      other code points is outside the model.
    - A value produced by [yaml.safe_load] is a [yaml]: null, booleans,
      integers, strings, sequences and mappings with string keys (the
      scripts annotate tasks as [Dict[str, Any]]).  Floats, timestamps and
      binary scalars are outside the model.
    - A Python [dict] is an association list in insertion order; lookup
      returns the first binding of a key.
    - Code that can raise returns [py A]: [Ret a] for a normal return and
      [Raise e] for an uncaught exception.
    - What a script reads from the file system (existence of directories,
      results of [glob], outcome of opening and parsing a file) is an explicit
      argument.  Standard output is not modelled: each [main] is described by
      the list it accumulates and the exit code it returns. *)

From Stdlib Require Import Ascii String NArith ZArith Bool List Lia.
From Stdlib Require Import DecimalString.
From stdpp Require Import gmap strings list.

Local Open Scope N_scope.
Local Open Scope nat_scope.
#[local] Set Warnings "-clear-no-such-hyp".

(* ===================================================================== *)
(** ** Python strings *)
(* ===================================================================== *)

Module pystr.

Definition code (c : ascii) : N := N_of_ascii c.

(** The double quote and the line feed, which cannot be typed inside a
    string literal. *)
Definition dquote : ascii := "034"%char.
Definition squote : ascii := "039"%char.
Definition newline : ascii := "010"%char.
Definition DQ : string := String dquote "".
Definition NL : string := String newline "".

(** [str.isspace] on one character: the ASCII white space of Python
    (tab to carriage return, the four separators 28..31, space) and, in
    Latin-1, NEL and the no-break space. *)
Definition isspace (c : ascii) : bool :=
  let n := code c in
  ((9 <=? n) && (n <=? 13) || (28 <=? n) && (n <=? 32)
   || (n =? 133) || (n =? 160))%N.

(** Simple lower-case mapping of one character: [A-Z] and the Latin-1
    capitals 192..222 (without the multiplication sign 215). *)
Definition lower_char (c : ascii) : ascii :=
  let n := code c in
  if ((65 <=? n) && (n <=? 90)
      || (192 <=? n) && (n <=? 222) && negb (n =? 215))%N
  then ascii_of_N (n + 32) else c.

(** [s.lower()] *)
Fixpoint lower (s : string) : string :=
  match s with
  | EmptyString => EmptyString
  | String c s' => String (lower_char c) (lower s')
  end.

(** [sub in s] on strings. *)
Fixpoint contains (sub s : string) : bool :=
  String.prefix sub s
  || match s with
     | EmptyString => false
     | String _ s' => contains sub s'
     end.

Fixpoint lstrip (s : string) : string :=
  match s with
  | EmptyString => EmptyString
  | String c s' => if isspace c then lstrip s' else s
  end.

Fixpoint rev_onto (s acc : string) : string :=
  match s with
  | EmptyString => acc
  | String c s' => rev_onto s' (String c acc)
  end.

Definition rev (s : string) : string := rev_onto s EmptyString.

(** [s.strip()] *)
Definition strip (s : string) : string := rev (lstrip (rev (lstrip s))).

Fixpoint drop (n : nat) (s : string) : string :=
  match n, s with
  | S n', String _ s' => drop n' s'
  | _, _ => s
  end.

(** [s.endswith(suffix)] *)
Definition endswith (s suffix : string) : bool :=
  (String.length suffix <=? String.length s)
  && String.eqb (drop (String.length s - String.length suffix) s) suffix.

(** [sep.join(ls)] *)
Definition join (sep : string) (ls : list string) : string :=
  String.concat sep ls.

(** [str(n)] for integers. *)
Definition of_Z (z : Z) : string := NilZero.string_of_int (Z.to_int z).
Definition of_nat (n : nat) : string := of_Z (Z.of_nat n).

Definition hex_digit (n : N) : ascii :=
  if (n <? 10)%N then ascii_of_N (48 + n) else ascii_of_N (87 + n).

(** One character inside [repr(s)], [q] being the quote in use. *)
Definition repr_char (q : ascii) (c : ascii) : string :=
  let n := code c in
  if (n =? 92)%N then "\\"
  else if Ascii.eqb c q then String "\" (String q "")
  else if (n =? 9)%N then "\t"
  else if (n =? 10)%N then "\n"
  else if (n =? 13)%N then "\r"
  else if ((n <? 32) || (127 <=? n) && (n <=? 160) || (n =? 173))%N
  then String "\" (String "x" (String (hex_digit (n / 16))
                                 (String (hex_digit (n mod 16)) "")))
  else String c "".

Fixpoint repr_body (q : ascii) (s : string) : string :=
  match s with
  | EmptyString => EmptyString
  | String c s' => repr_char q c +:+ repr_body q s'
  end.

Fixpoint has_char (x : ascii) (s : string) : bool :=
  match s with
  | EmptyString => false
  | String c s' => Ascii.eqb c x || has_char x s'
  end.

(** [repr(s)]: single quotes, unless the text has a single quote and no
    double quote. *)
Definition repr (s : string) : string :=
  let q := if has_char squote s && negb (has_char dquote s)
           then dquote else squote in
  String q (repr_body q s +:+ String q "").

End pystr.

(* ===================================================================== *)
(** ** Exceptions *)
(* ===================================================================== *)

Inductive exn : Type :=
| TypeError (msg : string)
| ValueError (msg : string)
| AttributeError (msg : string)
| FileNotFoundError
| NotADirectoryError.

Inductive py (A : Type) : Type :=
| Ret (a : A)
| Raise (e : exn).
Arguments Ret {A} a.
Arguments Raise {A} e.

#[global] Instance py_ret : MRet py := fun A a => Ret a.
#[global] Instance py_bind : MBind py := fun A B k m =>
  match m with
  | Ret a => k a
  | Raise e => Raise e
  end.

Definition returns {A : Type} (m : py A) : bool :=
  match m with Ret _ => true | Raise _ => false end.

(* ===================================================================== *)
(** ** Parsed YAML values *)
(* ===================================================================== *)

#[warnings="-register-all"]
Inductive yaml : Type :=
| YNull
| YBool (b : bool)
| YInt (z : Z)
| YStr (s : string)
| YList (items : list yaml)
| YMap (entries : list (string * yaml)).

(** A Python dict with string keys. *)
Definition dict : Type := list (string * yaml).

(** [d.get(k)], [None] when the key is absent. *)
Fixpoint dict_get (k : string) (d : dict) : option yaml :=
  match d with
  | [] => None
  | (k', v) :: d' => if String.eqb k' k then Some v else dict_get k d'
  end.

(** [k in d] *)
Definition dict_has (k : string) (d : dict) : bool :=
  match dict_get k d with Some _ => true | None => false end.

(** Truth value of an object, as [if not data] tests it. *)
Definition truthy (v : yaml) : bool :=
  match v with
  | YNull => false
  | YBool b => b
  | YInt z => negb (z =? 0)%Z
  | YStr s => negb (String.eqb s "")
  | YList l => match l with [] => false | _ => true end
  | YMap m => match m with [] => false | _ => true end
  end.

(** [type(v).__name__] *)
Definition type_name (v : yaml) : string :=
  match v with
  | YNull => "NoneType"
  | YBool _ => "bool"
  | YInt _ => "int"
  | YStr _ => "str"
  | YList _ => "list"
  | YMap _ => "dict"
  end.

(** [repr(v)] *)
Fixpoint py_repr (v : yaml) : string :=
  match v with
  | YNull => "None"
  | YBool true => "True"
  | YBool false => "False"
  | YInt z => pystr.of_Z z
  | YStr s => pystr.repr s
  | YList l => "[" +:+ pystr.join ", " (map py_repr l) +:+ "]"
  | YMap m =>
      "{" +:+ pystr.join ", "
               (map (fun kv => match kv with
                               | (k, x) => pystr.repr k +:+ ": " +:+ py_repr x
                               end) m) +:+ "}"
  end.

(** [str(v)], which is what an f-string inserts. *)
Definition py_str (v : yaml) : string :=
  match v with
  | YStr s => s
  | _ => py_repr v
  end.

(* ===================================================================== *)
(** ** Paths *)
(* ===================================================================== *)

(** A pure POSIX path: whether it starts at the root, and its components. *)
Record Path : Type := mkPath { anchored : bool; parts : list string }.

Module path.

(** [p.name] *)
Definition name (p : Path) : string := List.last (parts p) "".

(** [str(p)] *)
Definition str (p : Path) : string :=
  match anchored p, parts p with
  | false, [] => "."
  | false, ps => pystr.join "/" ps
  | true, ps => "/" +:+ pystr.join "/" ps
  end.

(** [p / child] *)
Definition child (p : Path) (c : string) : Path :=
  mkPath (anchored p) (parts p ++ [c]).

Fixpoint strip_prefix (base ps : list string) : option (list string) :=
  match base, ps with
  | [], _ => Some ps
  | b :: base', x :: ps' =>
      if String.eqb b x then strip_prefix base' ps' else None
  | _ :: _, [] => None
  end.

(** [p.relative_to(other)]: [ValueError] unless [other] is an ancestor of
    [p] (or [p] itself) with the same anchor. *)
Definition relative_to (p other : Path) : py Path :=
  if Bool.eqb (anchored p) (anchored other) then
    match strip_prefix (parts other) (parts p) with
    | Some rest => Ret (mkPath false rest)
    | None =>
        Raise (ValueError (pystr.repr (str p) +:+ " is not in the subpath of "
                           +:+ pystr.repr (str other)))
    end
  else
    Raise (ValueError (pystr.repr (str p) +:+ " is not in the subpath of "
                       +:+ pystr.repr (str other))).

End path.

(* ===================================================================== *)
(** ** scripts/validate_idempotency.py *)
(* ===================================================================== *)

Module validate_idempotency.

(** The three messages [check_task_idempotency] can append. *)
Definition raw_issue (file_name task_name : string) : string :=
  file_name +:+ ": Task '" +:+ task_name +:+ "' uses 'raw' without changed_when "
  +:+ "(acceptable in preflight.yml only)".

Definition unguarded_issue (file_name task_name module_type : string) : string :=
  file_name +:+ ": Task '" +:+ task_name +:+ "' uses '" +:+ module_type +:+ "' "
  +:+ "without changed_when, creates, or removes".

Definition disabled_issue (file_name task_name : string) : string :=
  file_name +:+ ": Task '" +:+ task_name +:+ "' has 'changed_when: true' "
  +:+ "(disables idempotency - should have explanatory comment)".

(** [task.get("name", f"task #{task_idx}")], as the f-strings print it. *)
Definition task_name_of (task : dict) (task_idx : nat) : string :=
  match dict_get "name" task with
  | Some v => py_str v
  | None => "task #" +:+ pystr.of_nat task_idx
  end.

Definition uses_shell (task : dict) : bool :=
  dict_has "shell" task || dict_has "ansible.builtin.shell" task.
Definition uses_command (task : dict) : bool :=
  dict_has "command" task || dict_has "ansible.builtin.command" task.
Definition uses_raw (task : dict) : bool :=
  dict_has "raw" task || dict_has "ansible.builtin.raw" task.

(** The key whose value is inspected for [creates]/[removes]. *)
Definition module_key (task : dict) : string :=
  let key := if uses_shell task then "shell" else "command" in
  if negb (dict_has key task) then "ansible.builtin." +:+ key else key.

(** [isinstance(v, dict)] followed by [k in v]. *)
Definition mapping_has (k : string) (v : option yaml) : bool :=
  match v with
  | Some (YMap m) => dict_has k m
  | _ => false
  end.

(** [has_creates] and [has_removes] after the block of lines 41-56.  An
    absent module key or [args] key reads as the empty dict. *)
Definition has_arg (k : string) (task : dict) : bool :=
  if uses_shell task || uses_command task then
    mapping_has k (dict_get (module_key task) task)
    || mapping_has k (dict_get "args" task)
  else false.

Definition check_task_idempotency
    (task : dict) (file_path : Path) (task_idx : nat) : list string :=
  let task_name := task_name_of task task_idx in
  if negb (uses_shell task || uses_command task || uses_raw task) then []
  else
    let has_changed_when := dict_has "changed_when" task in
    let has_creates := has_arg "creates" task in
    let has_removes := has_arg "removes" task in
    if uses_raw task then
      (if negb (pystr.contains "preflight" (pystr.lower (path.name file_path)))
       then (if negb has_changed_when
             then [raw_issue (path.name file_path) task_name]
             else [])
       else [])
    else
      (if negb (has_changed_when || has_creates || has_removes)
       then [unguarded_issue (path.name file_path) task_name
               (if uses_shell task then "shell" else "command")]
       else [])
      ++
      (if has_changed_when
       then match dict_get "changed_when" task with
            | Some (YBool true) =>
                [disabled_issue (path.name file_path) task_name]
            | _ => []
            end
       else []).

(** Outcome of [open] and [yaml.safe_load] on one file. *)
Inductive loaded : Type :=
| LoadError (e : string)
| Loaded (data : yaml).

(** [enumerate(v)]: the items with their index; a string yields its
    characters and a dict its keys, the other scalars are not iterable. *)
Definition enumerate (v : yaml) : py (list (nat * yaml)) :=
  match v with
  | YList l => Ret (imap (fun i x => (i, x)) l)
  | YStr s => Ret (imap (fun i c => (i, YStr (String c ""))) (list_ascii_of_string s))
  | YMap m => Ret (imap (fun i kv => (i, YStr (fst kv))) m)
  | _ => Raise (TypeError ("'" +:+ type_name v +:+ "' object is not iterable"))
  end.

(** One of the three loops over a section of a play (lines 109-121). *)
Definition check_section
    (section : string) (play : dict) (file_path : Path) : py (list string) :=
  tasks ← enumerate (default (YList []) (dict_get section play));
  mret (flat_map (fun it => match it with
                            | (idx, YMap task) =>
                                check_task_idempotency task file_path idx
                            | _ => []
                            end) tasks).

Definition check_play (play : yaml) (file_path : Path) : py (list string) :=
  match play with
  | YMap p =>
      pre ← check_section "pre_tasks" p file_path;
      mid ← check_section "tasks" p file_path;
      post ← check_section "post_tasks" p file_path;
      mret (pre ++ mid ++ post)
  | _ => mret []
  end.

Fixpoint check_plays (plays : list yaml) (file_path : Path) : py (list string) :=
  match plays with
  | [] => mret []
  | play :: rest =>
      here ← check_play play file_path;
      there ← check_plays rest file_path;
      mret (here ++ there)
  end.

(** The loop of the [elif] branch (lines 124-127). *)
Definition check_task_list (tasks : list yaml) (file_path : Path) : list string :=
  flat_map (fun it => match it with
                      | (idx, YMap task) =>
                          check_task_idempotency task file_path idx
                      | _ => []
                      end) (imap (fun i x => (i, x)) tasks).

Definition check_yaml_file (file_path : Path) (opened : loaded) : py (list string) :=
  match opened with
  | LoadError e => mret ["Failed to parse " +:+ path.str file_path +:+ ": " +:+ e]
  | Loaded data =>
      if negb (truthy data) then mret []
      else
        match data with
        | YList plays => check_plays plays file_path
        | _ =>
            match data with
            | YList tasks => mret (check_task_list tasks file_path)
            | _ => mret []
            end
        end
  end.

End validate_idempotency.

(* ===================================================================== *)
(** ** What the two walkers see of the repository *)
(* ===================================================================== *)

(** [d.exists()] followed by [d.glob("*.yml")]: [None] when [d] does not
    exist, otherwise the files found, each with the outcome of opening it
    (a type [A] that depends on the script). *)
Definition globbed (A : Type) : Type := option (list (Path * A)).

(** One entry of [roles_dir.iterdir()]. *)
Record role_entry (A : Type) : Type := mkRoleEntry {
  entry_is_dir : bool;
  entry_tasks : globbed A
}.
Arguments mkRoleEntry {A} _ _.
Arguments entry_is_dir {A} _.
Arguments entry_tasks {A} _.

(** [roles_dir.exists()] followed by [roles_dir.iterdir()]. *)
Inductive roles_state (A : Type) : Type :=
| RolesAbsent
| RolesNotADirectory
| RolesListing (entries : list (role_entry A)).
Arguments RolesAbsent {A}.
Arguments RolesNotADirectory {A}.
Arguments RolesListing {A} entries.

Record repo (A : Type) : Type := mkRepo {
  playbooks_glob : globbed A;
  roles_iterdir : roles_state A
}.
Arguments mkRepo {A} _ _.
Arguments playbooks_glob {A} _.
Arguments roles_iterdir {A} _.

(** The traversal both [main] functions perform (playbooks, then the task
    directory of every role), extending [all_issues] file by file. *)
Section Walk.
Context {A : Type} (check : Path -> A -> py (list string)).

Fixpoint walk_files (files : list (Path * A)) : py (list string) :=
  match files with
  | [] => mret []
  | (yaml_file, opened) :: rest =>
      here ← check yaml_file opened;
      there ← walk_files rest;
      mret (here ++ there)
  end.

Definition walk_glob (g : globbed A) : py (list string) :=
  match g with
  | None => mret []
  | Some files => walk_files files
  end.

Fixpoint walk_roles (entries : list (role_entry A)) : py (list string) :=
  match entries with
  | [] => mret []
  | role_dir :: rest =>
      here ← (if negb (entry_is_dir role_dir) then mret []
              else walk_glob (entry_tasks role_dir));
      there ← walk_roles rest;
      mret (here ++ there)
  end.

Definition walk (r : repo A) : py (list string) :=
  from_playbooks ← walk_glob (playbooks_glob r);
  from_roles ← match roles_iterdir r with
               | RolesAbsent => mret []
               | RolesNotADirectory => Raise NotADirectoryError
               | RolesListing entries => walk_roles entries
               end;
  mret (from_playbooks ++ from_roles).
End Walk.

Module idempotency_main.
Import validate_idempotency.

Definition all_issues (r : repo loaded) : py (list string) :=
  walk check_yaml_file r.

(** [main]: both branches of the report return 0. *)
Definition main (r : repo loaded) : py Z :=
  issues ← all_issues r;
  match issues with
  | _ :: _ => mret 0%Z
  | [] => mret 0%Z
  end.
End idempotency_main.

(* ===================================================================== *)
(** ** Regular expressions, as far as the pattern tables use them *)
(* ===================================================================== *)

Module re.

(** What matches one character. *)
Inductive cls : Type :=
| Lit (c : ascii)
| Dot
| Space
| OneOf (cs : list ascii).

Inductive quant : Type := One | Opt | Star | Plus.

Inductive item : Type :=
| Item (a : cls) (q : quant)
| Eos.

Definition is_alnum (c : ascii) : bool :=
  let n := pystr.code c in
  ((48 <=? n) && (n <=? 57) || (65 <=? n) && (n <=? 90)
   || (97 <=? n) && (n <=? 122))%N.

(** Characters with a meaning of their own where an atom starts. *)
Definition is_special (c : ascii) : bool :=
  existsb (Ascii.eqb c)
    ["*"; "+"; "?"; "("; ")"; "{"; "}"; "|"; "^"; "]"]%char.

(** The members of a set up to the closing bracket.  Ranges, negation and
    class escapes are not part of the fragment. *)
Fixpoint parse_set (s : string) (acc : list ascii) : option (list ascii * string) :=
  match s with
  | EmptyString => None
  | String c rest =>
      if Ascii.eqb c "]" then Some (rev acc, rest)
      else if Ascii.eqb c "\" then
        match rest with
        | String e rest' =>
            if is_alnum e then None else parse_set rest' (e :: acc)
        | EmptyString => None
        end
      else if Ascii.eqb c "-" || Ascii.eqb c "^" then None
      else parse_set rest (c :: acc)
  end.

Definition parse_atom (s : string) : option (cls * string) :=
  match s with
  | EmptyString => None
  | String c rest =>
      if Ascii.eqb c "\" then
        match rest with
        | String e rest' =>
            if Ascii.eqb e "s" then Some (Space, rest')
            else if is_alnum e then None
            else Some (Lit e, rest')
        | EmptyString => None
        end
      else if Ascii.eqb c "." then Some (Dot, rest)
      else if Ascii.eqb c "[" then
        match parse_set rest [] with
        | Some (cs, rest') => Some (OneOf cs, rest')
        | None => None
        end
      else if is_special c then None
      else Some (Lit c, rest)
  end.

Definition parse_quant (s : string) : quant * string :=
  match s with
  | String "?" rest => (Opt, rest)
  | String "*" rest => (Star, rest)
  | String "+" rest => (Plus, rest)
  | _ => (One, s)
  end.

Fixpoint parse (fuel : nat) (s : string) : option (list item) :=
  match s with
  | EmptyString => Some []
  | String c rest =>
      match fuel with
      | O => None
      | S fuel' =>
          if Ascii.eqb c "$" then
            option_map (cons Eos) (parse fuel' rest)
          else
            match parse_atom s with
            | Some (a, rest1) =>
                let (q, rest2) := parse_quant rest1 in
                option_map (cons (Item a q)) (parse fuel' rest2)
            | None => None
            end
      end
  end.

(** [re.compile(pattern, re.IGNORECASE)] on the supported fragment. *)
Definition compile (pattern : string) : option (list item) :=
  parse (String.length pattern) pattern.

(** One character against one class, ignoring case. *)
Definition cls_matches (a : cls) (c : ascii) : bool :=
  match a with
  | Lit l => Ascii.eqb (pystr.lower_char c) (pystr.lower_char l)
  | Dot => negb (Ascii.eqb c pystr.newline)
  | Space => pystr.isspace c
  | OneOf cs =>
      existsb (fun l => Ascii.eqb (pystr.lower_char c) (pystr.lower_char l)) cs
  end.

(** [$] without [re.MULTILINE]: the end of the text, or just before a
    line feed that ends the text. *)
Definition at_end (s : string) : bool :=
  match s with
  | EmptyString => true
  | String c EmptyString => Ascii.eqb c pystr.newline
  | _ => false
  end.

(** Does the pattern match a prefix of [s]?  Every way of splitting the
    text between the repetitions is tried, the longest first or last
    making no difference to whether there is a match. *)
Fixpoint match_here (its : list item) : string -> bool :=
  match its with
  | [] => fun _ => true
  | Eos :: r => fun s => if at_end s then match_here r s else false
  | Item a One :: r => fun s =>
      match s with
      | String c s' => if cls_matches a c then match_here r s' else false
      | EmptyString => false
      end
  | Item a Opt :: r => fun s =>
      if match_here r s then true
      else match s with
           | String c s' => if cls_matches a c then match_here r s' else false
           | EmptyString => false
           end
  | Item a Star :: r =>
      fix star (s : string) : bool :=
        if match_here r s then true
        else match s with
             | String c s' => if cls_matches a c then star s' else false
             | EmptyString => false
             end
  | Item a Plus :: r => fun s =>
      match s with
      | String c s' =>
          if cls_matches a c then
            (fix star (s : string) : bool :=
               if match_here r s then true
               else match s with
                    | String c s' => if cls_matches a c then star s' else false
                    | EmptyString => false
                    end) s'
          else false
      | EmptyString => false
      end
  end.

(** A match may start anywhere, the end of the text included. *)
Fixpoint search_items (its : list item) (s : string) : bool :=
  if match_here its s then true
  else match s with
       | String _ s' => search_items its s'
       | EmptyString => false
       end.

(** Truth value of [re.search(pattern, text, re.IGNORECASE)]. *)
Definition search (pattern text : string) : bool :=
  match compile pattern with
  | Some its => search_items its text
  | None => false
  end.

End re.

(* ===================================================================== *)
(** ** scripts/check_darwin_guards.py *)
(* ===================================================================== *)

Module check_darwin_guards.

Import pystr.

(** The set of the two quote characters, optional and required. *)
Definition quote_opt : string := "[" +:+ DQ +:+ "\']?".
Definition quote_one : string := "[" +:+ DQ +:+ "\']".

Definition MACOS_INDICATORS : list string :=
  [ "homebrew";
    "brew\s+";
    "launchd";
    "xcode-select";
    "softwareupdate";
    "\.app" +:+ quote_opt +:+ "\s*$";
    "\.dmg" +:+ quote_opt +:+ "\s*$";
    "\.pkg" +:+ quote_opt +:+ "\s*$";
    "/Applications/";
    "com\.apple\.";
    "defaults\s+write";
    "darwin" ].

Definition DARWIN_GUARDS : list string :=
  [ "ansible_system.*==.*" +:+ quote_one +:+ "Darwin" +:+ quote_one;
    "ansible_os_family.*==.*" +:+ quote_one +:+ "Darwin" +:+ quote_one;
    "ansible_distribution.*==.*" +:+ quote_one +:+ "MacOSX" +:+ quote_one ].

(** Outcome of [open] and [f.read()] on one file. *)
Inductive opened : Type :=
| ReadError (e : string)
| Content (content : string).

Definition has_guards (content : string) : bool :=
  existsb (fun pattern => re.search pattern content) DARWIN_GUARDS.

Definition macos_indicators_found (content : string) : list string :=
  List.filter (fun pattern => re.search pattern content) MACOS_INDICATORS.

Definition guard_issue (shown : string) (found : list string) : string :=
  shown +:+ ": " +:+ "Contains macOS-specific patterns but no Darwin guard: "
  +:+ join ", " (firstn 3 found).

(** [cwd] is [Path.cwd()]. *)
Definition check_file_for_guards
    (cwd : Path) (file_path : Path) (f : opened) : py (list string) :=
  match f with
  | ReadError e =>
      mret ["Failed to read " +:+ path.str file_path +:+ ": " +:+ e]
  | Content content =>
      let found := macos_indicators_found content in
      if (match found with [] => false | _ => true end)
         && negb (has_guards content)
      then
        if negb (contains "preflight" (lower (path.name file_path)))
        then
          shown ← path.relative_to file_path cwd;
          mret [guard_issue (path.str shown) found]
        else mret []
      else mret []
  end.

Definition all_issues (cwd : Path) (r : repo opened) : py (list string) :=
  walk (check_file_for_guards cwd) r.

(** [main]: both branches of the report return 0. *)
Definition main (cwd : Path) (r : repo opened) : py Z :=
  issues ← all_issues cwd r;
  match issues with
  | _ :: _ => mret 0%Z
  | [] => mret 0%Z
  end.

End check_darwin_guards.

(* ===================================================================== *)
(** ** scripts/validate_models.py *)
(* ===================================================================== *)

Module validate_models.

Definition not_a_dict_error (idx : nat) (model : yaml) : string :=
  "Model at index " +:+ pystr.of_nat idx +:+ " must be a dict, got "
  +:+ type_name model.
Definition missing_name_error (idx : nat) : string :=
  "Model at index " +:+ pystr.of_nat idx +:+ " missing required 'name' field".
Definition name_not_str_error (idx : nat) : string :=
  "Model at index " +:+ pystr.of_nat idx +:+ ": 'name' must be a string".
Definition empty_name_error (idx : nat) : string :=
  "Model at index " +:+ pystr.of_nat idx +:+ ": 'name' cannot be empty".
Definition duplicate_error (name : string) : string :=
  "Duplicate model name: '" +:+ name +:+ "'".
Definition state_error (name : string) (state : yaml) : string :=
  "Model '" +:+ name +:+ "': 'state' must be 'present' or 'absent', got '"
  +:+ py_str state +:+ "'".

(** [state in ["present", "absent"]] *)
Definition valid_state (state : yaml) : bool :=
  match state with
  | YStr s => String.eqb s "present" || String.eqb s "absent"
  | _ => false
  end.

(** One iteration of the loop of [validate_model_structure]: the new
    value of [seen_names] and the errors appended.  The four [continue]
    statements leave [seen_names] as it is. *)
Definition check_model
    (idx : nat) (model : yaml) (seen_names : gset string)
    : gset string * list string :=
  match model with
  | YMap m =>
      match dict_get "name" m with
      | None => (seen_names, [missing_name_error idx])
      | Some (YStr name) =>
          if String.eqb (pystr.strip name) ""
          then (seen_names, [empty_name_error idx])
          else
            ({[ name ]} ∪ seen_names,
             (if decide (name ∈ seen_names)
              then [duplicate_error name] else [])
             ++
             match dict_get "state" m with
             | Some state =>
                 if negb (valid_state state)
                 then [state_error name state] else []
             | None => []
             end)
      | Some _ => (seen_names, [name_not_str_error idx])
      end
  | _ => (seen_names, [not_a_dict_error idx model])
  end.

Fixpoint check_models
    (idx : nat) (models : list yaml) (seen_names : gset string) : list string :=
  match models with
  | [] => []
  | model :: rest =>
      let (seen_names', errors) := check_model idx model seen_names in
      errors ++ check_models (S idx) rest seen_names'
  end.

Definition validate_model_structure (models : yaml) : list string :=
  match models with
  | YList ms =>
      match ms with
      | [] => []
      | _ => check_models 0 ms ∅
      end
  | _ => ["ollama_models must be a list, got " +:+ type_name models]
  end.

(** [vars_file.exists()] and the outcome of [yaml.safe_load]. *)
Inductive vars_file : Type :=
| VarsMissing
| VarsYAMLError (e : string)
| VarsLoaded (vars_data : yaml).

(** [vars_data.get("ollama_models", [])] *)
Definition get_models (vars_data : yaml) : py yaml :=
  match vars_data with
  | YMap d => mret (default (YList []) (dict_get "ollama_models" d))
  | _ => Raise (AttributeError ("'" +:+ type_name vars_data
                                +:+ "' object has no attribute 'get'"))
  end.

Definition main (f : vars_file) : py Z :=
  match f with
  | VarsMissing => mret 1%Z
  | VarsYAMLError _ => mret 1%Z
  | VarsLoaded vars_data =>
      if negb (truthy vars_data) then mret 1%Z
      else
        models ← get_models vars_data;
        let errors := validate_model_structure models in
        match errors with
        | _ :: _ => mret 1%Z
        | [] => mret 0%Z
        end
  end.

(** The value of the variable [errors] when [main] reaches its report;
    [None] when [main] has returned before assigning it. *)
Definition errors_at_report (f : vars_file) : py (option (list string)) :=
  match f with
  | VarsMissing => mret None
  | VarsYAMLError _ => mret None
  | VarsLoaded vars_data =>
      if negb (truthy vars_data) then mret None
      else
        models ← get_models vars_data;
        mret (Some (validate_model_structure models))
  end.

End validate_models.

(* ===================================================================== *)
(** ** scripts/validate_structure.py *)
(* ===================================================================== *)

(** A directory tree, as far as names and kinds go. *)
#[warnings="-register-all"]
Inductive fsnode : Type :=
| File
| Dir (entries : list (string * fsnode)).

Module fs.

Definition is_dir (n : fsnode) : bool :=
  match n with Dir _ => true | File => false end.

Fixpoint lookup (name : string) (entries : list (string * fsnode)) : option fsnode :=
  match entries with
  | [] => None
  | (n, x) :: rest => if String.eqb n name then Some x else lookup name rest
  end.

(** The node at [p / name], if it exists. *)
Definition child (p : option fsnode) (name : string) : option fsnode :=
  match p with
  | Some (Dir entries) => lookup name entries
  | _ => None
  end.

Definition exists_ (p : option fsnode) : bool :=
  match p with Some _ => true | None => false end.

Definition exists_dir (p : option fsnode) : bool :=
  match p with Some n => is_dir n | None => false end.

(** [d.glob("*" + suffix)]: the names in [d] that end in [suffix]; nothing
    when [d] is not a directory. *)
Definition glob (suffix : string) (d : fsnode) : list string :=
  match d with
  | Dir entries =>
      List.filter (fun n => pystr.endswith n suffix) (map fst entries)
  | File => []
  end.

End fs.

Module validate_structure.

Definition expected_files : list (string * string) :=
  [ ("defaults", "main.yml"); ("vars", "main.yml");
    ("handlers", "main.yml"); ("meta", "main.yml") ].

(** Body of the loop over [role_dirs]. *)
Definition check_role (role_name : string) (role_dir : fsnode) : list string :=
  (if negb (fs.exists_ (fs.child (fs.child (Some role_dir) "tasks") "main.yml"))
   then ["Role '" +:+ role_name +:+ "' missing tasks/main.yml"]
   else [])
  ++
  flat_map
    (fun kv =>
       match kv with
       | (dir_name, expected_file) =>
           let dir_path := fs.child (Some role_dir) dir_name in
           if fs.exists_ dir_path && fs.exists_dir dir_path then
             if negb (fs.exists_ (fs.child dir_path expected_file))
             then ["Role '" +:+ role_name +:+ "' has " +:+ dir_name
                   +:+ "/ directory " +:+ "but missing " +:+ expected_file]
             else []
           else []
       end)
    expected_files.

(** [roles_dir] is the path printed in messages and [node] what is found
    there ([None]: nothing). *)
Definition validate_role_structure
    (roles_dir : Path) (node : option fsnode) : py (list string) :=
  match node with
  | None => mret ["Roles directory not found: " +:+ path.str roles_dir]
  | Some File => Raise NotADirectoryError
  | Some (Dir entries) =>
      let role_dirs := List.filter (fun e => fs.is_dir (snd e)) entries in
      match role_dirs with
      | [] => mret ["No roles found in " +:+ path.str roles_dir]
      | _ =>
          mret (flat_map (fun e => check_role (fst e) (snd e)) role_dirs)
      end
  end.

(** Body of the loop of [validate_task_files]; the inner loop over
    [task_files] appends nothing. *)
Definition check_role_tasks (role_name : string) (role_dir : fsnode) : list string :=
  if negb (fs.is_dir role_dir) then []
  else
    match fs.child (Some role_dir) "tasks" with
    | None => []
    | Some tasks_dir =>
        let yml_count := length (fs.glob ".yml" tasks_dir) in
        let yaml_count := length (fs.glob ".yaml" tasks_dir) in
        if (0 <? yml_count) && (0 <? yaml_count)
        then ["Role '" +:+ role_name
              +:+ "' mixes .yml and .yaml extensions in tasks/"]
        else []
    end.

Definition validate_task_files
    (roles_dir : Path) (node : option fsnode) : py (list string) :=
  match node with
  | None => Raise FileNotFoundError
  | Some File => Raise NotADirectoryError
  | Some (Dir entries) =>
      mret (flat_map (fun e => check_role_tasks (fst e) (snd e)) entries)
  end.

Definition all_errors (roles_dir : Path) (node : option fsnode) : py (list string) :=
  structure ← validate_role_structure roles_dir node;
  tasks ← validate_task_files roles_dir node;
  mret (structure ++ tasks).

Definition main (roles_dir : Path) (node : option fsnode) : py Z :=
  errors ← all_errors roles_dir node;
  match errors with
  | _ :: _ => mret 1%Z
  | [] => mret 0%Z
  end.

End validate_structure.

(* ===================================================================== *)
(** ** Vocabulary of the properties *)
(* ===================================================================== *)

(** The three diagnostics of the idempotency checker, told apart by the
    fixed text each one ends with (a task name may contain any text, so the
    beginning of a message does not identify it). *)
Definition is_unguarded_issue (msg : string) : bool :=
  pystr.endswith msg "without changed_when, creates, or removes".
Definition is_disabled_issue (msg : string) : bool :=
  pystr.endswith msg "(disables idempotency - should have explanatory comment)".
Definition is_raw_issue (msg : string) : bool :=
  pystr.endswith msg "uses 'raw' without changed_when (acceptable in preflight.yml only)".

Definition count_issues (p : string -> bool) (issues : list string) : nat :=
  length (List.filter p issues).

(** The four spellings under which a task names the shell or the command
    module. *)
Definition shell_command_keys : list string :=
  [ "shell"; "ansible.builtin.shell"; "command"; "ansible.builtin.command" ].

(** A shell/command task carries the argument [arg] when the mapping given
    to one of its module keys has it, or when the task-level [args] mapping
    has it.  This follows the wording of the specification, not the code. *)
Definition spec_carries (arg : string) (task : dict) : bool :=
  (validate_idempotency.uses_shell task || validate_idempotency.uses_command task)
  && (existsb (fun k => validate_idempotency.mapping_has arg (dict_get k task))
        shell_command_keys
      || validate_idempotency.mapping_has arg (dict_get "args" task)).

(** A document in task-file form: a non-empty sequence of mappings none of
    which has a play's section keys. *)
Definition is_task (v : yaml) : bool :=
  match v with
  | YMap t => negb (dict_has "pre_tasks" t) && negb (dict_has "tasks" t)
              && negb (dict_has "post_tasks" t)
  | _ => false
  end.
Definition task_file_form (data : yaml) : bool :=
  match data with
  | YList (t :: ts) => forallb is_task (t :: ts)
  | _ => false
  end.

(** A string made of white space only. *)
Fixpoint all_space (s : string) : bool :=
  match s with
  | EmptyString => true
  | String c s' => pystr.isspace c && all_space s'
  end.

(** The last character of a text. *)
Fixpoint last_char (s : string) : option ascii :=
  match s with
  | EmptyString => None
  | String c EmptyString => Some c
  | String _ s' => last_char s'
  end.

(** The name of a model entry that passes every check of the validator. *)
Definition valid_model (name : string) (model : yaml) : Prop :=
  exists m, model = YMap m
            /\ dict_get "name" m = Some (YStr name)
            /\ pystr.strip name <> ""
            /\ match dict_get "state" m with
               | Some state => validate_models.valid_state state = true
               | None => True
               end.

(** Every section of every play can be iterated. *)
Definition iterable (v : yaml) : bool :=
  match v with
  | YNull | YBool _ | YInt _ => false
  | _ => true
  end.
Definition play_iterable (play : yaml) : bool :=
  match play with
  | YMap p =>
      forallb (fun section => iterable (default (YList []) (dict_get section p)))
        [ "pre_tasks"; "tasks"; "post_tasks" ]
  | _ => true
  end.
Definition document_iterable (opened : validate_idempotency.loaded) : bool :=
  match opened with
  | validate_idempotency.Loaded (YList plays) => forallb play_iterable plays
  | _ => true
  end.

(** A property of every file the walkers visit. *)
Definition glob_all {A : Type} (p : Path -> A -> bool) (g : globbed A) : bool :=
  match g with
  | None => true
  | Some files => forallb (fun f => p (fst f) (snd f)) files
  end.
Definition repo_all {A : Type} (p : Path -> A -> bool) (r : repo A) : bool :=
  glob_all p (playbooks_glob r)
  && match roles_iterdir r with
     | RolesAbsent => true
     | RolesNotADirectory => false
     | RolesListing entries =>
         forallb (fun e => negb (entry_is_dir e) || glob_all p (entry_tasks e))
           entries
     end.

(** The lines of a text. *)
Fixpoint splitlines (s : string) : list string :=
  match s with
  | EmptyString => [""]
  | String c s' =>
      if Ascii.eqb c pystr.newline then "" :: splitlines s'
      else match splitlines s' with
           | l :: ls => String c l :: ls
           | [] => [String c ""]
           end
  end.

(** The three suffix indicators of [MACOS_INDICATORS]. *)
Definition SUFFIX_INDICATORS : list string :=
  List.filter (fun pattern => pystr.endswith pattern "$")
    check_darwin_guards.MACOS_INDICATORS.

(** Some line of the text, taken on its own, ends with one of the suffix
    indicators.  This follows the wording of the specification. *)
Definition spec_suffix_at_line_end (text : string) : bool :=
  existsb (fun line => existsb (fun pattern => re.search pattern line)
                         SUFFIX_INDICATORS)
    (splitlines text).

(** The file is one the Darwin checker reports. *)
Definition flagged (file_path : Path) (f : check_darwin_guards.opened) : bool :=
  match f with
  | check_darwin_guards.ReadError _ => false
  | check_darwin_guards.Content content =>
      match check_darwin_guards.macos_indicators_found content with
      | [] => false
      | _ => true
      end
      && negb (check_darwin_guards.has_guards content)
      && negb (pystr.contains "preflight" (pystr.lower (path.name file_path)))
  end.

(** The path of a reported file can be printed relative to [cwd]. *)
Definition printable (cwd file_path : Path) (f : check_darwin_guards.opened) : bool :=
  negb (flagged file_path f) || returns (path.relative_to file_path cwd).

(** What [main] of the model validator can call [get] on: nothing is
    called on a falsy value, and a mapping has the method. *)
Definition vars_usable (f : validate_models.vars_file) : bool :=
  match f with
  | validate_models.VarsLoaded vars_data =>
      negb (truthy vars_data)
      || match vars_data with YMap _ => true | _ => false end
  | _ => true
  end.

(** The names that occur a second or later time, [seen] holding the names
    met before the list starts. *)
Fixpoint repeated (seen : gset string) (names : list string) : list string :=
  match names with
  | [] => []
  | n :: ns =>
      (if decide (n ∈ seen) then [n] else []) ++ repeated ({[ n ]} ∪ seen) ns
  end.

(* ===================================================================== *)
(** ** Sample inputs *)
(* ===================================================================== *)

Module sample.

Definition repo_root : Path := mkPath true ["srv"; "anchor"].
(** The directory of the scripts, as a working directory. *)
Definition scripts_dir : Path := mkPath true ["srv"; "anchor"; "scripts"].
Definition role_tasks_file : Path :=
  mkPath true ["srv"; "anchor"; "roles"; "tool"; "tasks"; "main.yml"].
Definition site_playbook : Path :=
  mkPath true ["srv"; "anchor"; "playbooks"; "site.yml"].
Definition preflight_playbook : Path :=
  mkPath true ["srv"; "anchor"; "playbooks"; "Preflight.yml"].

(** [- name: Build the tool] / [shell: make install] *)
Definition build_task : dict :=
  [ ("name", YStr "Build the tool"); ("shell", YStr "make install") ].

(** A task with two module keys; only the command mapping has [creates]. *)
Definition two_module_task : dict :=
  [ ("name", YStr "Install the tool");
    ("shell", YStr "make install");
    ("command", YMap [ ("cmd", YStr "make install");
                       ("creates", YStr "/usr/local/bin/tool") ]) ].

Definition creates_task : dict :=
  [ ("name", YStr "Install the tool");
    ("ansible.builtin.command",
     YMap [ ("cmd", YStr "make install");
            ("creates", YStr "/usr/local/bin/tool") ]) ].

(** [changed_when: true] on a task of another module. *)
Definition service_task : dict :=
  [ ("name", YStr "Restart the service");
    ("ansible.builtin.service",
     YMap [ ("name", YStr "ollama"); ("state", YStr "restarted") ]);
    ("changed_when", YBool true) ].

Definition always_changed_task : dict :=
  [ ("name", YStr "Refresh the index");
    ("command", YStr "tool refresh");
    ("args", YMap [ ("creates", YStr "/var/lib/tool/index") ]);
    ("changed_when", YBool true) ].

Definition expression_task : dict :=
  [ ("name", YStr "Refresh the index");
    ("command", YStr "tool refresh");
    ("changed_when", YStr "true") ].

Definition raw_task : dict :=
  [ ("name", YStr "Find python"); ("raw", YStr "command -v python3") ].

(** Three lines of a task file; the second ends in [.app]. *)
Definition viewer_tasks : string :=
  "- name: Open the viewer" +:+ pystr.NL
  +:+ "  command: open /opt/viewer/Viewer.app" +:+ pystr.NL
  +:+ "  changed_when: false" +:+ pystr.NL.

(** The same task with the [.app] line last. *)
Definition viewer_tasks_reordered : string :=
  "- name: Open the viewer" +:+ pystr.NL
  +:+ "  changed_when: false" +:+ pystr.NL
  +:+ "  command: open /opt/viewer/Viewer.app" +:+ pystr.NL.

Definition brew_tasks : string :=
  "- name: Install packages" +:+ pystr.NL
  +:+ "  community.general.homebrew:" +:+ pystr.NL
  +:+ "    name: ollama" +:+ pystr.NL
  +:+ "- name: Start the agent" +:+ pystr.NL
  +:+ "  command: launchctl load /Library/LaunchDaemons/com.apple.agent.plist" +:+ pystr.NL
  +:+ "  args:" +:+ pystr.NL
  +:+ "    creates: /Applications/Ollama.app" +:+ pystr.NL.

Definition guarded_brew_tasks : string :=
  brew_tasks +:+ "  when: ansible_system == 'Darwin'" +:+ pystr.NL.

(** A playbook with one play whose only task is [build_task]. *)
Definition build_playbook : yaml :=
  YList [ YMap [ ("hosts", YStr "all");
                 ("tasks", YList [ YMap build_task ]) ] ].

(** A play with [tasks:] left empty. *)
Definition empty_tasks_playbook : yaml :=
  YList [ YMap [ ("hosts", YStr "all"); ("tasks", YNull) ] ].

Definition idempotency_repo : repo validate_idempotency.loaded :=
  mkRepo (Some [ (site_playbook, validate_idempotency.Loaded build_playbook) ])
    (RolesListing
       [ mkRoleEntry false None;
         mkRoleEntry true
           (Some [ (role_tasks_file,
                    validate_idempotency.Loaded (YList [ YMap build_task ])) ]) ]).

Definition darwin_repo : repo check_darwin_guards.opened :=
  mkRepo (Some [ (site_playbook, check_darwin_guards.Content viewer_tasks) ])
    (RolesListing
       [ mkRoleEntry true
           (Some [ (role_tasks_file, check_darwin_guards.Content brew_tasks) ]) ]).

Definition empty_tasks_repo : repo validate_idempotency.loaded :=
  mkRepo
    (Some [ (site_playbook, validate_idempotency.Loaded empty_tasks_playbook) ])
    RolesAbsent.

Definition roles_dir : Path := mkPath true ["srv"; "anchor"; "roles"].

(** [roles/README.md] and a role whose [defaults/] has no [main.yml] and
    whose [tasks/] mixes the two extensions. *)
Definition roles_tree : fsnode :=
  Dir [ ("README.md", File);
        ("tool", Dir [ ("tasks", Dir [ ("main.yml", File);
                                       ("install.yaml", File) ]);
                       ("defaults", Dir []) ]) ].

Definition clean_roles_tree : fsnode :=
  Dir [ ("tool", Dir [ ("tasks", Dir [ ("main.yml", File) ]) ]) ].

Definition llama : yaml := YMap [ ("name", YStr "llama3:8b") ].
Definition llama_present : yaml :=
  YMap [ ("name", YStr "llama3:8b"); ("state", YStr "present") ].
Definition nomic : yaml := YMap [ ("name", YStr "nomic-embed-text") ].

(** [group_vars/all.yml] without, and with a null, [ollama_models]. *)
Definition vars_without_models : dict := [ ("ollama_host", YStr "127.0.0.1") ].
Definition vars_null_models : dict :=
  [ ("ollama_host", YStr "127.0.0.1"); ("ollama_models", YNull) ].
Definition vars_two_llamas : dict :=
  [ ("ollama_models", YList [ llama; llama_present ]) ].

(** A model whose name is two spaces and a tab, with a bad state. *)
Definition blank_name : string := String " " (String " " (String "009" "")).
Definition blank_model : dict :=
  [ ("name", YStr blank_name); ("state", YStr "maybe") ].

End sample.

(* ===================================================================== *)
(** ** Vocabulary and sample inputs of the further properties *)
(* ===================================================================== *)

(** A pattern without the end-of-text anchor. *)
Definition eos_free (its : list re.item) : bool :=
  forallb (fun it => match it with re.Eos => false | re.Item _ _ => true end) its.

Definition unanchored (pattern : string) : bool :=
  match re.compile pattern with
  | Some its => eos_free its
  | None => false
  end.

(** The patterns of both tables that have no anchor: the three guards and
    all indicators but the suffix ones. *)
Definition UNANCHORED_PATTERNS : list string :=
  List.filter unanchored
    (check_darwin_guards.MACOS_INDICATORS ++ check_darwin_guards.DARWIN_GUARDS).

(** A pattern made of ordinary characters, one literal each. *)
Fixpoint literal_items (word : string) : list re.item :=
  match word with
  | EmptyString => []
  | String c word' => re.Item (re.Lit c) re.One :: literal_items word'
  end.

(** The indicators that are plain words, without any character that has
    a meaning in a pattern. *)
Definition is_meta (c : ascii) : bool :=
  existsb (Ascii.eqb c)
    ["\"; "."; "["; "]"; "$"; "*"; "+"; "?"; "("; ")"; "{"; "}"; "|"; "^"]%char.
Definition PLAIN_INDICATORS : list string :=
  List.filter
    (fun pattern => negb (existsb is_meta (list_ascii_of_string pattern)))
    check_darwin_guards.MACOS_INDICATORS.

(** The conditions under which a role passes [check_role]. *)
Definition has_tasks_main (role_dir : fsnode) : bool :=
  fs.exists_ (fs.child (fs.child (Some role_dir) "tasks") "main.yml").
Definition optional_dir_ok (role_dir : fsnode) (dir_name : string) : bool :=
  negb (fs.exists_dir (fs.child (Some role_dir) dir_name))
  || fs.exists_ (fs.child (fs.child (Some role_dir) dir_name) "main.yml").

(** The [tasks/] directory of the role has files of both extensions. *)
Definition mixes_extensions (role_dir : fsnode) : bool :=
  match fs.child (Some role_dir) "tasks" with
  | Some (Dir entries) =>
      existsb (fun n => pystr.endswith n ".yml") (map fst entries)
      && existsb (fun n => pystr.endswith n ".yaml") (map fst entries)
  | _ => false
  end.

(** A value that can be iterated: a sequence, a string or a mapping. *)
Definition is_collection (v : yaml) : bool :=
  match v with
  | YList _ | YStr _ | YMap _ => true
  | _ => false
  end.

(** Every section of every play of the playbook is a collection, an
    absent section counting as the empty list. *)
Definition sections_are_collections (plays : list yaml) : bool :=
  forallb
    (fun play =>
       match play with
       | YMap p =>
           forallb (fun section =>
                      is_collection (default (YList []) (dict_get section p)))
             [ "pre_tasks"; "tasks"; "post_tasks" ]
       | _ => true
       end) plays.

(** Some play of the playbook binds a section to null, a boolean or an
    integer. *)
Definition has_scalar_section (plays : list yaml) : bool :=
  existsb
    (fun play =>
       match play with
       | YMap p =>
           existsb (fun section =>
                      match dict_get section p with
                      | Some YNull | Some (YBool _) | Some (YInt _) => true
                      | _ => false
                      end)
             [ "pre_tasks"; "tasks"; "post_tasks" ]
       | _ => false
       end) plays.

(** The mixed-extension error of a role. *)
Definition mixed_error (role_name : string) : string :=
  "Role '" +:+ role_name +:+ "' mixes .yml and .yaml extensions in tasks/".

Module sample_more.

Definition removes_task : dict :=
  [ ("name", YStr "Drop the cache");
    ("shell", YStr "rm -rf /var/cache/tool");
    ("args", YMap [ ("removes", YStr "/var/cache/tool") ]) ].

(** A play with a guarded and an unguarded task, and a second play. *)
Definition first_play : yaml :=
  YMap [ ("hosts", YStr "all");
         ("pre_tasks", YList [ YMap sample.raw_task ]);
         ("tasks", YList [ YStr "stray"; YMap sample.build_task ]) ].
Definition second_play : yaml :=
  YMap [ ("hosts", YStr "all");
         ("post_tasks", YList [ YMap sample.always_changed_task ]) ].

(** A variables file: a mapping at the top level. *)
Definition vars_document : yaml :=
  YMap [ ("ollama_host", YStr "127.0.0.1"); ("tasks", YNull) ].

Definition guard_line : string := "  when: ansible_os_family == 'Darwin'".

Definition maybe_model : dict :=
  [ ("name", YStr "x"); ("state", YStr "maybe") ].

Definition role_with_tasks_only : fsnode :=
  Dir [ ("tasks", Dir [ ("main.yml", File) ]); ("README.md", File) ].

Definition role_mixing : fsnode :=
  Dir [ ("tasks", Dir [ ("main.yml", File); ("install.yml", File);
                        ("configure.yaml", File) ]) ].

End sample_more.

(* ===================================================================== *)
(** ** Strings: auxiliary facts *)
(* ===================================================================== *)

Section StringFacts.

Lemma append_cons (c : ascii) (s t : string) :
  String c s +:+ t = String c (s +:+ t).
Proof. reflexivity. Qed.

Lemma append_nil_l (s : string) : "" +:+ s = s.
Proof. reflexivity. Qed.

Lemma append_assoc (a b c : string) : (a +:+ b) +:+ c = a +:+ (b +:+ c).
Proof.
  induction a as [|x a IH]; [reflexivity|].
  rewrite !append_cons. by rewrite IH.
Qed.

Lemma length_append (a b : string) :
  String.length (a +:+ b) = String.length a + String.length b.
Proof.
  induction a as [|x a IH]; [reflexivity|].
  rewrite append_cons. cbn [String.length]. by rewrite IH.
Qed.

Lemma drop_append (a b : string) :
  pystr.drop (String.length a) (a +:+ b) = b.
Proof.
  induction a as [|x a IH]; [by destruct b|].
  rewrite append_cons. cbn [String.length pystr.drop]. exact IH.
Qed.

(** Only the end of a text decides whether it ends with [suffix]. *)
Lemma endswith_append (a b suffix : string) :
  String.length suffix <= String.length b ->
  pystr.endswith (a +:+ b) suffix = pystr.endswith b suffix.
Proof.
  intros Hlen. unfold pystr.endswith.
  rewrite length_append.
  replace (String.length suffix <=? String.length a + String.length b)
    with true by (symmetry; apply Nat.leb_le; lia).
  replace (String.length suffix <=? String.length b)
    with true by (symmetry; apply Nat.leb_le; lia).
  cbn [andb]. f_equal.
  induction a as [|x a IH].
  - reflexivity.
  - rewrite append_cons.
    replace (String.length (String x a) + String.length b - String.length suffix)
      with (S (String.length a + String.length b - String.length suffix))
      by (cbn [String.length]; lia).
    cbn [pystr.drop]. exact IH.
Qed.

Lemma last_char_append (a b : string) :
  b <> "" -> last_char (a +:+ b) = last_char b.
Proof.
  intros Hb. induction a as [|x a IH]; [reflexivity|].
  rewrite append_cons. cbn [last_char]. rewrite IH.
  destruct (a +:+ b) eqn:E; [|reflexivity].
  destruct a; [|discriminate]. by destruct b.
Qed.

Lemma drop_is_suffix (n : nat) (s : string) :
  exists p, s = p +:+ pystr.drop n s.
Proof.
  revert s. induction n as [|n IH]; intros s.
  - exists "". by destruct s.
  - destruct s as [|c s]; [by exists ""|].
    destruct (IH s) as [p Hp]. exists (String c p).
    rewrite append_cons. cbn [pystr.drop]. by rewrite <- Hp.
Qed.

Lemma endswith_is_suffix (s suffix : string) :
  pystr.endswith s suffix = true -> exists p, s = p +:+ suffix.
Proof.
  unfold pystr.endswith. intros [_ Heq%String.eqb_eq]%andb_prop.
  rewrite <- Heq. apply drop_is_suffix.
Qed.

(** A text that ends with [suffix] ends with the last character of it. *)
Lemma endswith_last_char (s suffix : string) :
  pystr.endswith s suffix = true -> suffix <> "" ->
  last_char s = last_char suffix.
Proof.
  intros [p ->]%endswith_is_suffix Hne. by apply last_char_append.
Qed.

Lemma lstrip_all_space (s : string) :
  all_space s = true -> pystr.lstrip s = "".
Proof.
  induction s as [|c s IH]; [reflexivity|].
  cbn [all_space pystr.lstrip]. intros [Hc Hs]%andb_prop.
  rewrite Hc. by apply IH.
Qed.

Lemma strip_all_space (s : string) :
  all_space s = true -> pystr.strip s = "".
Proof.
  intros H. unfold pystr.strip. by rewrite (lstrip_all_space s H).
Qed.

End StringFacts.

(* ===================================================================== *)
(** ** The idempotency checker: one task *)
(* ===================================================================== *)

Section TaskFacts.
Import validate_idempotency.

Local Ltac drop_prefix :=
  rewrite endswith_append
    by (rewrite ?length_append; cbn [String.length]; lia).

Lemma unguarded_issue_shell_is_unguarded (f n : string) :
  is_unguarded_issue (unguarded_issue f n "shell") = true.
Proof.
  unfold is_unguarded_issue, unguarded_issue. do 3 drop_prefix. reflexivity.
Qed.

Lemma unguarded_issue_command_is_unguarded (f n : string) :
  is_unguarded_issue (unguarded_issue f n "command") = true.
Proof.
  unfold is_unguarded_issue, unguarded_issue. do 3 drop_prefix. reflexivity.
Qed.

Lemma unguarded_issue_not_disabled (f n m : string) :
  is_disabled_issue (unguarded_issue f n m) = false.
Proof.
  destruct (is_disabled_issue _) eqn:E; [exfalso|reflexivity].
  apply endswith_last_char in E; [|discriminate].
  unfold unguarded_issue in E. rewrite <- !append_assoc in E.
  rewrite last_char_append in E by discriminate. discriminate E.
Qed.

Lemma raw_issue_is_raw (f n : string) : is_raw_issue (raw_issue f n) = true.
Proof.
  unfold is_raw_issue, raw_issue. do 3 drop_prefix. reflexivity.
Qed.

Lemma raw_issue_not_unguarded (f n : string) :
  is_unguarded_issue (raw_issue f n) = false.
Proof.
  unfold is_unguarded_issue, raw_issue. do 3 drop_prefix. reflexivity.
Qed.

Lemma raw_issue_not_disabled (f n : string) :
  is_disabled_issue (raw_issue f n) = false.
Proof.
  unfold is_disabled_issue, raw_issue. do 3 drop_prefix. reflexivity.
Qed.

Lemma disabled_issue_is_disabled (f n : string) :
  is_disabled_issue (disabled_issue f n) = true.
Proof.
  unfold is_disabled_issue, disabled_issue. do 3 drop_prefix. reflexivity.
Qed.

Lemma disabled_issue_not_unguarded (f n : string) :
  is_unguarded_issue (disabled_issue f n) = false.
Proof.
  unfold is_unguarded_issue, disabled_issue. do 3 drop_prefix. reflexivity.
Qed.

Lemma disabled_issue_not_raw (f n : string) :
  is_raw_issue (disabled_issue f n) = false.
Proof.
  unfold is_raw_issue, disabled_issue. do 3 drop_prefix. reflexivity.
Qed.

(** A task that names none of the three modules is not looked at. *)
Lemma check_other_module (task : dict) (file_path : Path) (idx : nat) :
  uses_shell task = false -> uses_command task = false ->
  uses_raw task = false ->
  check_task_idempotency task file_path idx = [].
Proof.
  intros Hs Hc Hr. unfold check_task_idempotency. by rewrite Hs, Hc, Hr.
Qed.

(** The raw branch returns before the shell/command rules. *)
Lemma check_raw (task : dict) (file_path : Path) (idx : nat) :
  uses_raw task = true ->
  check_task_idempotency task file_path idx =
    if pystr.contains "preflight" (pystr.lower (path.name file_path))
    then []
    else if dict_has "changed_when" task then []
         else [raw_issue (path.name file_path) (task_name_of task idx)].
Proof.
  intros Hr. unfold check_task_idempotency.
  rewrite Hr, orb_true_r. cbn [negb].
  by destruct (pystr.contains _ _), (dict_has "changed_when" task).
Qed.

(** What the shell/command rules compute for a task without raw. *)
Lemma check_shell_command (task : dict) (file_path : Path) (idx : nat) :
  uses_shell task || uses_command task = true ->
  uses_raw task = false ->
  check_task_idempotency task file_path idx =
    (if dict_has "changed_when" task || has_arg "creates" task
        || has_arg "removes" task
     then []
     else [unguarded_issue (path.name file_path) (task_name_of task idx)
             (if uses_shell task then "shell" else "command")])
    ++
    match dict_get "changed_when" task with
    | Some (YBool true) =>
        [disabled_issue (path.name file_path) (task_name_of task idx)]
    | _ => []
    end.
Proof.
  intros Hsc Hr. unfold check_task_idempotency.
  rewrite Hr, orb_false_r, Hsc. cbn [negb].
  unfold dict_has.
  destruct (dict_get "changed_when" task) as [v|]; cbn [orb negb].
  - by destruct v as [|[]| | | |].
  - by destruct (has_arg "creates" task || has_arg "removes" task).
Qed.

(** With exactly one of the four keys present, that key is the one whose
    arguments are inspected. *)
Lemma module_key_only (task : dict) (k : string) :
  In k shell_command_keys ->
  dict_has k task = true ->
  (forall k', In k' shell_command_keys -> k' <> k -> dict_has k' task = false) ->
  module_key task = k.
Proof.
  intros Hin Hk Honly. unfold module_key, uses_shell.
  cbn in Hin.
  destruct Hin as [<-|[<-|[<-|[<-|[]]]]].
  - rewrite Hk. cbn. by rewrite Hk.
  - rewrite Hk, orb_true_r.
    rewrite (Honly "shell") by (cbn; intuition congruence). reflexivity.
  - rewrite (Honly "shell"), (Honly "ansible.builtin.shell")
      by (cbn; intuition congruence).
    cbn. by rewrite Hk.
  - rewrite (Honly "shell"), (Honly "ansible.builtin.shell")
      by (cbn; intuition congruence).
    cbn. rewrite (Honly "command") by (cbn; intuition congruence).
    reflexivity.
Qed.

End TaskFacts.

Section TaskRules.
Import validate_idempotency.

(** A guard found where the checker looks silences the unguarded-task
    diagnostic. *)
Lemma guarded_no_unguarded_issue
    (arg : string) (task : dict) (file_path : Path) (idx : nat) :
  arg = "creates" \/ arg = "removes" ->
  uses_shell task || uses_command task = true ->
  mapping_has arg (dict_get (module_key task) task) = true
  \/ mapping_has arg (dict_get "args" task) = true ->
  count_issues is_unguarded_issue
    (check_task_idempotency task file_path idx) = 0.
Proof.
  intros Harg Hsc Hhas.
  assert (Hg : has_arg arg task = true).
  { unfold has_arg. rewrite Hsc. apply orb_true_iff. tauto. }
  destruct (uses_raw task) eqn:Hr.
  - rewrite check_raw by done.
    repeat case_match; try reflexivity.
    unfold count_issues. cbn [List.filter].
    by rewrite raw_issue_not_unguarded.
  - rewrite check_shell_command by done.
    replace (dict_has "changed_when" task || has_arg "creates" task
             || has_arg "removes" task) with true
      by (destruct Harg as [-> | ->]; rewrite Hg;
          by rewrite ?orb_true_r).
    destruct (dict_get "changed_when" task) as [[|[]| | | |]|];
      try reflexivity.
    unfold count_issues. cbn [app List.filter].
    by rewrite disabled_issue_not_unguarded.
Qed.

(** No value of [changed_when] other than the boolean true is reported as
    disabling idempotency. *)
Lemma not_true_no_disabled_issue (task : dict) (file_path : Path) (idx : nat) :
  dict_get "changed_when" task <> Some (YBool true) ->
  count_issues is_disabled_issue
    (check_task_idempotency task file_path idx) = 0.
Proof.
  intros Hv.
  destruct (uses_raw task) eqn:Hr.
  - rewrite check_raw by done.
    repeat case_match; try reflexivity.
    unfold count_issues. cbn [List.filter].
    by rewrite raw_issue_not_disabled.
  - destruct (uses_shell task || uses_command task) eqn:Hsc.
    + rewrite check_shell_command by done.
      assert (Hnone :
        match dict_get "changed_when" task with
        | Some (YBool true) =>
            [disabled_issue (path.name file_path) (task_name_of task idx)]
        | _ => []
        end = []).
      { destruct (dict_get "changed_when" task) as [[|[]| | | |]|];
          congruence. }
      rewrite Hnone, app_nil_r.
      destruct (dict_has "changed_when" task || has_arg "creates" task
                || has_arg "removes" task); [reflexivity|].
      unfold count_issues. cbn [List.filter].
      by rewrite unguarded_issue_not_disabled.
    + apply orb_false_iff in Hsc as [Hs Hc].
      by rewrite check_other_module.
Qed.

Lemma raw_task_outcomes (task : dict) (file_path : Path) (idx : nat) :
  uses_raw task = true ->
  check_task_idempotency task file_path idx = []
  \/ check_task_idempotency task file_path idx =
       [raw_issue (path.name file_path) (task_name_of task idx)].
Proof.
  intros Hr. rewrite check_raw by done.
  repeat case_match; auto.
Qed.

End TaskRules.

(* ===================================================================== *)
(** ** The idempotency checker: one file *)
(* ===================================================================== *)

Section FileFacts.
Import validate_idempotency.

Lemma check_section_absent (section : string) (play : dict) (file_path : Path) :
  dict_has section play = false ->
  check_section section play file_path = Ret [].
Proof.
  unfold dict_has, check_section. by destruct (dict_get section play).
Qed.

(** A mapping in task form is read as a play without sections. *)
Lemma check_play_task (t : yaml) (file_path : Path) :
  is_task t = true -> check_play t file_path = Ret [].
Proof.
  destruct t as [| | | | |t]; try discriminate. cbn [is_task].
  intros [[Hpre Hmid]%andb_prop Hpost]%andb_prop.
  apply negb_true_iff in Hpre, Hmid, Hpost. unfold check_play.
  by rewrite !check_section_absent.
Qed.

Lemma check_plays_tasks (ts : list yaml) (file_path : Path) :
  forallb is_task ts = true -> check_plays ts file_path = Ret [].
Proof.
  induction ts as [|t ts IH]; [reflexivity|].
  cbn [forallb]. intros [Ht Hts]%andb_prop. cbn [check_plays].
  by rewrite check_play_task, IH.
Qed.

(** Whatever its tasks are, a file in task-file form yields nothing: the
    branch that would loop over the tasks is never reached. *)
Lemma check_yaml_file_task_file (data : yaml) (file_path : Path) :
  task_file_form data = true ->
  check_yaml_file file_path (Loaded data) = Ret [].
Proof.
  destruct data as [| | | |[|t ts]|]; try discriminate.
  intros H. unfold check_yaml_file. cbn [truthy negb].
  by apply check_plays_tasks.
Qed.

End FileFacts.

(* ===================================================================== *)
(** ** Properties of the idempotency checker *)
(* ===================================================================== *)

Section IdempotencyClaims.
Import validate_idempotency.

(** C1.  A roles task file holding one unguarded shell task: the task on
    its own is reported, the file in task-file form is not.  The list is
    taken for a list of plays, each task is asked for its [pre_tasks],
    [tasks] and [post_tasks], and the branch written for task files is
    behind the same test. *)
Theorem C1_task_file_is_not_checked :
  task_file_form (YList [YMap sample.build_task]) = true
  /\ check_task_idempotency sample.build_task sample.role_tasks_file 0
     = [unguarded_issue "main.yml" "Build the tool" "shell"]
  /\ check_yaml_file sample.role_tasks_file
       (Loaded (YList [YMap sample.build_task])) = Ret [].
Proof. repeat split; reflexivity. Qed.

(** C3, as worded, fails: [creates] in the mapping of the command key is
    not seen when the task also has a shell key. *)
Lemma C3_counterexample :
  ~ (forall task file_path idx,
        spec_carries "creates" task = true ->
        count_issues is_unguarded_issue
          (check_task_idempotency task file_path idx) = 0).
Proof.
  intros H.
  specialize (H sample.two_module_task sample.role_tasks_file 0 eq_refl).
  vm_compute in H. discriminate H.
Qed.

(** C3, amended.  A shell/command task with [creates] in the task-level
    [args] mapping, or in the mapping stored under the module key the
    checker inspects ([module_key]: shell before command, the short
    spelling before the qualified one), gets no unguarded-task
    diagnostic. *)
Theorem C3_creates_where_inspected
    (task : dict) (file_path : Path) (idx : nat) :
  uses_shell task || uses_command task = true ->
  mapping_has "creates" (dict_get (module_key task) task) = true
  \/ mapping_has "creates" (dict_get "args" task) = true ->
  count_issues is_unguarded_issue
    (check_task_idempotency task file_path idx) = 0.
Proof. apply guarded_no_unguarded_issue. by left. Qed.

Lemma C3_witness :
  count_issues is_unguarded_issue
    (check_task_idempotency sample.creates_task sample.role_tasks_file 0) = 0.
Proof.
  apply C3_creates_where_inspected; [reflexivity | left; reflexivity].
Defined.

(** With a single module key the inspected mapping is the mapping of that
    key, so for such tasks C3 holds as worded. *)
Lemma creates_single_module_key
    (task : dict) (file_path : Path) (idx : nat) (k : string) :
  In k shell_command_keys ->
  (forall k', In k' shell_command_keys -> k' <> k -> dict_has k' task = false) ->
  mapping_has "creates" (dict_get k task) = true ->
  count_issues is_unguarded_issue
    (check_task_idempotency task file_path idx) = 0.
Proof.
  intros Hin Honly Hhas.
  assert (Hk : dict_has k task = true).
  { unfold dict_has. by destruct (dict_get k task). }
  apply (guarded_no_unguarded_issue "creates"); [by left| |].
  - unfold uses_shell, uses_command. cbn in Hin.
    destruct Hin as [<-|[<-|[<-|[<-|[]]]]]; rewrite Hk;
      by rewrite ?orb_true_r.
  - left. by rewrite (module_key_only task k).
Qed.

(** C4, as worded, fails: a task of another module is returned for at
    once, whatever its [changed_when]. *)
Lemma C4_counterexample :
  ~ (forall task file_path idx,
        dict_get "changed_when" task = Some (YBool true) ->
        count_issues is_disabled_issue
          (check_task_idempotency task file_path idx) = 1).
Proof.
  intros H.
  specialize (H sample.service_task sample.role_tasks_file 0 eq_refl).
  vm_compute in H. discriminate H.
Qed.

(** C4, amended.  For a task that uses shell or command and not raw,
    [changed_when: true] yields the disables-idempotency diagnostic, once
    and alone, whatever [creates], [removes] and [args] are.  For every
    task, a [changed_when] that is not the boolean true (a string, for
    one) yields no such diagnostic; nor does a task that uses raw or none
    of the three modules. *)
Theorem C4_changed_when_true (task : dict) (file_path : Path) (idx : nat) :
  (uses_shell task || uses_command task = true ->
   uses_raw task = false ->
   dict_get "changed_when" task = Some (YBool true) ->
   check_task_idempotency task file_path idx
     = [disabled_issue (path.name file_path) (task_name_of task idx)]
   /\ count_issues is_disabled_issue
        (check_task_idempotency task file_path idx) = 1)
  /\ (forall s, dict_get "changed_when" task = Some (YStr s) ->
       count_issues is_disabled_issue
         (check_task_idempotency task file_path idx) = 0)
  /\ (dict_get "changed_when" task <> Some (YBool true) ->
      count_issues is_disabled_issue
        (check_task_idempotency task file_path idx) = 0)
  /\ (uses_shell task || uses_command task = false \/ uses_raw task = true ->
      count_issues is_disabled_issue
        (check_task_idempotency task file_path idx) = 0).
Proof.
  split; [|split; [|split]].
  - intros Hsc Hr Htrue.
    rewrite check_shell_command by done.
    rewrite Htrue. unfold dict_has. rewrite Htrue. cbn [orb app].
    split; [reflexivity|].
    unfold count_issues. cbn [List.filter].
    by rewrite disabled_issue_is_disabled.
  - intros s Hs. apply not_true_no_disabled_issue. congruence.
  - apply not_true_no_disabled_issue.
  - intros Hother.
    destruct (uses_raw task) eqn:Hr.
    + destruct (raw_task_outcomes task file_path idx Hr) as [-> | ->];
        [reflexivity|].
      unfold count_issues. cbn [List.filter].
      by rewrite raw_issue_not_disabled.
    + destruct Hother as [Hsc | Hraw]; [|discriminate].
      apply orb_false_iff in Hsc as [Hs Hc].
      by rewrite check_other_module.
Qed.

Lemma C4_witness :
  (check_task_idempotency sample.always_changed_task sample.role_tasks_file 3
     = [disabled_issue "main.yml" "Refresh the index"]
   /\ count_issues is_disabled_issue
        (check_task_idempotency sample.always_changed_task
           sample.role_tasks_file 3) = 1)
  /\ count_issues is_disabled_issue
       (check_task_idempotency sample.expression_task
          sample.role_tasks_file 3) = 0.
Proof.
  split.
  - apply (proj1 (C4_changed_when_true sample.always_changed_task
                    sample.role_tasks_file 3)); reflexivity.
  - apply (proj1 (proj2 (C4_changed_when_true sample.expression_task
                           sample.role_tasks_file 3)) "true").
    reflexivity.
Defined.

(** C5.  A task that uses raw: nothing is reported in a file whose name
    contains preflight in any case; elsewhere a task without
    [changed_when] gets the raw diagnostic, once and alone; and in no case
    does a raw task get the unguarded-task or the disables-idempotency
    diagnostic, since the raw branch returns first. *)
Theorem C5_raw_task (task : dict) (file_path : Path) (idx : nat) :
  uses_raw task = true ->
  (pystr.contains "preflight" (pystr.lower (path.name file_path)) = true ->
   check_task_idempotency task file_path idx = [])
  /\ (pystr.contains "preflight" (pystr.lower (path.name file_path)) = false ->
      dict_has "changed_when" task = false ->
      check_task_idempotency task file_path idx
        = [raw_issue (path.name file_path) (task_name_of task idx)]
      /\ count_issues is_raw_issue
           (check_task_idempotency task file_path idx) = 1)
  /\ count_issues is_unguarded_issue
       (check_task_idempotency task file_path idx) = 0
  /\ count_issues is_disabled_issue
       (check_task_idempotency task file_path idx) = 0.
Proof.
  intros Hr. split; [|split; [|split]].
  - intros Hp. rewrite check_raw by done. by rewrite Hp.
  - intros Hp Hcw. rewrite check_raw by done. rewrite Hp, Hcw.
    split; [reflexivity|].
    unfold count_issues. cbn [List.filter]. by rewrite raw_issue_is_raw.
  - destruct (raw_task_outcomes task file_path idx Hr) as [-> | ->];
      [reflexivity|].
    unfold count_issues. cbn [List.filter].
    by rewrite raw_issue_not_unguarded.
  - destruct (raw_task_outcomes task file_path idx Hr) as [-> | ->];
      [reflexivity|].
    unfold count_issues. cbn [List.filter].
    by rewrite raw_issue_not_disabled.
Qed.

Lemma C5_witness :
  check_task_idempotency sample.raw_task sample.preflight_playbook 0 = []
  /\ check_task_idempotency sample.raw_task sample.site_playbook 0
     = [raw_issue "site.yml" "Find python"].
Proof.
  split.
  - apply (C5_raw_task sample.raw_task sample.preflight_playbook 0);
      reflexivity.
  - apply (C5_raw_task sample.raw_task sample.site_playbook 0);
      reflexivity.
Defined.

End IdempotencyClaims.

(* ===================================================================== *)
(** ** Properties of the Darwin checker *)
(* ===================================================================== *)

Section DarwinFacts.
Import check_darwin_guards.

(** Every pattern of the two tables is in the supported fragment. *)
Lemma tables_compile :
  forallb (fun pattern => bool_decide (is_Some (re.compile pattern)))
    (MACOS_INDICATORS ++ DARWIN_GUARDS) = true.
Proof. vm_compute. reflexivity. Qed.

Lemma found_nonempty (content : string) :
  (exists p, In p MACOS_INDICATORS /\ re.search p content = true)
  <-> macos_indicators_found content <> [].
Proof.
  unfold macos_indicators_found. split.
  - intros (p & Hin & Hp) Hnil.
    assert (Hf : In p (List.filter (fun pattern => re.search pattern content)
                         MACOS_INDICATORS))
      by (apply filter_In; auto).
    rewrite Hnil in Hf. destruct Hf.
  - destruct (List.filter _ MACOS_INDICATORS) as [|p ps] eqn:E; [done|].
    intros _. exists p.
    apply (filter_In (fun pattern => re.search pattern content)).
    rewrite E. by left.
Qed.

Lemma has_guards_false (content : string) :
  (forall g, In g DARWIN_GUARDS -> re.search g content = false)
  <-> has_guards content = false.
Proof.
  unfold has_guards. split.
  - intros H. apply not_true_is_false. intros (g & Hin & Hg)%existsb_exists.
    rewrite (H g Hin) in Hg. discriminate.
  - intros H g Hin. apply not_true_is_false. intros Hg.
    assert (existsb (fun pattern => re.search pattern content) DARWIN_GUARDS
            = true) by (apply existsb_exists; eauto).
    congruence.
Qed.

Lemma has_guards_true (content : string) :
  (exists g, In g DARWIN_GUARDS /\ re.search g content = true)
  <-> has_guards content = true.
Proof. unfold has_guards. symmetry. apply existsb_exists. Qed.

(** The three cases of the decision taken for a file that was read. *)
Lemma check_guarded (cwd file_path : Path) (content : string) :
  has_guards content = true ->
  check_file_for_guards cwd file_path (Content content) = Ret [].
Proof.
  intros Hg. unfold check_file_for_guards. rewrite Hg.
  by rewrite andb_false_r.
Qed.

Lemma check_preflight (cwd file_path : Path) (content : string) :
  pystr.contains "preflight" (pystr.lower (path.name file_path)) = true ->
  check_file_for_guards cwd file_path (Content content) = Ret [].
Proof.
  intros Hp. unfold check_file_for_guards. rewrite Hp.
  by destruct (_ && _).
Qed.

Lemma check_flagged (cwd file_path shown : Path) (content : string) :
  macos_indicators_found content <> [] ->
  has_guards content = false ->
  pystr.contains "preflight" (pystr.lower (path.name file_path)) = false ->
  path.relative_to file_path cwd = Ret shown ->
  check_file_for_guards cwd file_path (Content content)
  = Ret [guard_issue (path.str shown) (macos_indicators_found content)].
Proof.
  intros Hf Hg Hp Hrel. unfold check_file_for_guards.
  rewrite Hg, Hp, Hrel.
  by destruct (macos_indicators_found content).
Qed.

(** The checker raises only when it cannot print the path of a file it
    reports. *)
Lemma check_file_for_guards_returns (cwd file_path : Path) (f : opened) :
  returns (check_file_for_guards cwd file_path f) = printable cwd file_path f.
Proof.
  unfold printable, flagged, check_file_for_guards.
  destruct f as [e|content]; [reflexivity|].
  destruct (macos_indicators_found content), (has_guards content),
    (pystr.contains _ _); try reflexivity.
  cbn [andb negb orb]. by destruct (path.relative_to file_path cwd).
Qed.

(** C2.  Three lines of a task file whose second line ends in [.app]: no
    indicator is recorded, and the file is not reported.  The end-of-text
    anchor of the suffix patterns is searched in the whole text without
    the multi-line flag, so the suffix is found only when nothing but
    white space follows it in the file, as it is once the line is moved
    to the end. *)
Theorem C2_suffix_inside_the_file_is_missed :
  spec_suffix_at_line_end sample.viewer_tasks = true
  /\ macos_indicators_found sample.viewer_tasks = []
  /\ check_file_for_guards sample.repo_root sample.role_tasks_file
       (Content sample.viewer_tasks) = Ret []
  /\ macos_indicators_found sample.viewer_tasks_reordered
     = ["\.app" +:+ quote_opt +:+ "\s*$"].
Proof. vm_compute. repeat split; reflexivity. Qed.

(** The rule of the Darwin checker, for a file that was read and whose
    path can be printed relative to the working directory: with an
    indicator match, no guard match and no preflight in the name, one
    diagnostic, which lists the first three matched indicator patterns, or
    all of them when they are fewer.  A guard match anywhere in the text,
    or preflight in the name, gives no diagnostic, wherever the file is. *)
Lemma unguarded_file_one_diagnostic
    (cwd file_path : Path) (content : string) :
  ((exists p, In p MACOS_INDICATORS /\ re.search p content = true) ->
   (forall g, In g DARWIN_GUARDS -> re.search g content = false) ->
   pystr.contains "preflight" (pystr.lower (path.name file_path)) = false ->
   forall shown, path.relative_to file_path cwd = Ret shown ->
   exists listed,
     check_file_for_guards cwd file_path (Content content)
     = Ret [path.str shown +:+ ": "
            +:+ "Contains macOS-specific patterns but no Darwin guard: "
            +:+ pystr.join ", " listed]
     /\ listed = firstn 3 (List.filter (fun p => re.search p content)
                             MACOS_INDICATORS)
     /\ 1 <= length listed <= 3)
  /\ ((exists g, In g DARWIN_GUARDS /\ re.search g content = true)
      \/ pystr.contains "preflight" (pystr.lower (path.name file_path)) = true ->
      check_file_for_guards cwd file_path (Content content) = Ret []).
Proof.
  split.
  - intros Hind%found_nonempty Hguard%has_guards_false Hname shown Hrel.
    exists (firstn 3 (macos_indicators_found content)). split; [|split].
    + by rewrite (check_flagged cwd file_path shown).
    + reflexivity.
    + split; [|apply firstn_le_length].
      destruct (macos_indicators_found content) as [|p ps]; [done|].
      cbn. lia.
  - intros [Hguard%has_guards_true | Hname].
    + by apply check_guarded.
    + by apply check_preflight.
Qed.

Example unguarded_file_one_diagnostic_sample :
  (exists listed,
     check_file_for_guards sample.repo_root sample.role_tasks_file
       (Content sample.brew_tasks)
     = Ret ["roles/tool/tasks/main.yml" +:+ ": "
            +:+ "Contains macOS-specific patterns but no Darwin guard: "
            +:+ pystr.join ", " listed]
     /\ listed = firstn 3 (List.filter (fun p => re.search p sample.brew_tasks)
                             MACOS_INDICATORS)
     /\ 1 <= length listed <= 3)
  /\ check_file_for_guards sample.repo_root sample.role_tasks_file
       (Content sample.guarded_brew_tasks) = Ret [].
Proof.
  split.
  - refine (proj1 (unguarded_file_one_diagnostic
                     sample.repo_root sample.role_tasks_file sample.brew_tasks)
              _ _ _ (mkPath false ["roles"; "tool"; "tasks"; "main.yml"]) _).
    + exists "homebrew". split; [by left | reflexivity].
    + intros g Hg. cbn in Hg.
      destruct Hg as [<-|[<-|[<-|[]]]]; reflexivity.
    + reflexivity.
    + reflexivity.
  - apply (proj2 (unguarded_file_one_diagnostic
                    sample.repo_root sample.role_tasks_file
                    sample.guarded_brew_tasks)).
    left. exists (nth 0 DARWIN_GUARDS ""). split; [by left | reflexivity].
Qed.

(** A file the checker reports makes it raise exactly when its path does
    not lie under the working directory. *)
Lemma flagged_file_raises (cwd file_path : Path) (f : opened) :
  flagged file_path f = true ->
  returns (path.relative_to file_path cwd) = false ->
  exists e, check_file_for_guards cwd file_path f = Raise e.
Proof.
  intros Hflag Hrel.
  pose proof (check_file_for_guards_returns cwd file_path f) as Hret.
  unfold printable in Hret. rewrite Hflag, Hrel in Hret.
  destruct (check_file_for_guards cwd file_path f) as [issues|e];
    [discriminate | by exists e].
Qed.

(** C6.  A role task file with indicator matches, no guard match and no
    preflight in its name.  Run from the repository root the checker gives
    its one diagnostic; run from another directory it gives none and
    raises [ValueError], the path of the file not being relative to the
    working directory. *)
Theorem C6_report_outside_working_directory_raises :
  (exists p, In p MACOS_INDICATORS /\ re.search p sample.brew_tasks = true)
  /\ (forall g, In g DARWIN_GUARDS -> re.search g sample.brew_tasks = false)
  /\ pystr.contains "preflight"
       (pystr.lower (path.name sample.role_tasks_file)) = false
  /\ check_file_for_guards sample.repo_root sample.role_tasks_file
       (Content sample.brew_tasks)
     = Ret [guard_issue "roles/tool/tasks/main.yml"
              ["homebrew"; "launchd"; "\.app" +:+ quote_opt +:+ "\s*$"]]
  /\ exists msg,
       check_file_for_guards sample.scripts_dir sample.role_tasks_file
         (Content sample.brew_tasks) = Raise (ValueError msg).
Proof.
  split; [exists "homebrew"; split; [by left | reflexivity]|].
  split.
  { intros g Hg. cbn in Hg. destruct Hg as [<-|[<-|[<-|[]]]]; reflexivity. }
  split; [reflexivity|].
  split; [vm_compute; reflexivity|].
  eexists. vm_compute. reflexivity.
Qed.

End DarwinFacts.

(* ===================================================================== *)
(** ** The walkers and the exit codes *)
(* ===================================================================== *)

Section WalkFacts.
Context {A : Type} (check : Path -> A -> py (list string)).

Lemma walk_files_returns (files : list (Path * A)) :
  returns (walk_files check files)
  = forallb (fun f => returns (check (fst f) (snd f))) files.
Proof.
  induction files as [|[yaml_file opened] rest IH]; [reflexivity|].
  cbn [walk_files forallb fst snd]. rewrite <- IH.
  destruct (check yaml_file opened); [|reflexivity].
  by destruct (walk_files check rest).
Qed.

Lemma walk_glob_returns (g : globbed A) :
  returns (walk_glob check g)
  = glob_all (fun yaml_file opened => returns (check yaml_file opened)) g.
Proof. destruct g; [apply walk_files_returns | reflexivity]. Qed.

Lemma walk_roles_returns (entries : list (role_entry A)) :
  returns (walk_roles check entries)
  = forallb (fun e => negb (entry_is_dir e)
                      || glob_all (fun yaml_file opened =>
                                     returns (check yaml_file opened))
                           (entry_tasks e)) entries.
Proof.
  induction entries as [|e rest IH]; [reflexivity|].
  cbn [walk_roles forallb]. rewrite <- IH, <- walk_glob_returns.
  destruct (entry_is_dir e); cbn [negb orb].
  - destruct (walk_glob check (entry_tasks e)); [|reflexivity].
    by destruct (walk_roles check rest).
  - by destruct (walk_roles check rest).
Qed.

(** The walk raises exactly when the roles path is not a directory or the
    check of some visited file raises. *)
Lemma walk_returns (r : repo A) :
  returns (walk check r)
  = repo_all (fun yaml_file opened => returns (check yaml_file opened)) r.
Proof.
  unfold walk, repo_all. rewrite <- walk_glob_returns.
  destruct (walk_glob check (playbooks_glob r)); [|reflexivity].
  destruct (roles_iterdir r) as [| |entries]; try reflexivity.
  rewrite <- walk_roles_returns. by destruct (walk_roles check entries).
Qed.

Lemma forallb_pointwise {X : Type} (p q : X -> bool) (l : list X) :
  (forall x, p x = q x) -> forallb p l = forallb q l.
Proof.
  intros Hpq. induction l as [|x l IH]; [reflexivity|].
  cbn [forallb]. by rewrite Hpq, IH.
Qed.

Lemma repo_all_ext (p q : Path -> A -> bool) (r : repo A) :
  (forall yaml_file opened, p yaml_file opened = q yaml_file opened) ->
  repo_all p r = repo_all q r.
Proof.
  intros Hpq.
  assert (Hg : forall g, glob_all p g = glob_all q g).
  { intros [files|]; [|reflexivity]. cbn [glob_all].
    apply forallb_pointwise. auto. }
  unfold repo_all. rewrite Hg. f_equal.
  destruct (roles_iterdir r); try reflexivity.
  apply forallb_pointwise. intros e. by rewrite Hg.
Qed.

End WalkFacts.

Section ExitCodes.

Lemma check_section_returns (section : string) (play : dict) (file_path : Path) :
  returns (validate_idempotency.check_section section play file_path)
  = iterable (default (YList []) (dict_get section play)).
Proof.
  unfold validate_idempotency.check_section.
  by destruct (default (YList []) (dict_get section play)).
Qed.

Lemma check_play_returns (play : yaml) (file_path : Path) :
  returns (validate_idempotency.check_play play file_path)
  = play_iterable play.
Proof.
  destruct play as [| | | | |p]; try reflexivity.
  cbn [validate_idempotency.check_play play_iterable forallb].
  rewrite <- !(check_section_returns _ _ file_path), andb_true_r.
  destruct (validate_idempotency.check_section "pre_tasks" p file_path);
    [|reflexivity].
  destruct (validate_idempotency.check_section "tasks" p file_path);
    [|reflexivity].
  by destruct (validate_idempotency.check_section "post_tasks" p file_path).
Qed.

Lemma check_plays_returns (plays : list yaml) (file_path : Path) :
  returns (validate_idempotency.check_plays plays file_path)
  = forallb play_iterable plays.
Proof.
  induction plays as [|play rest IH]; [reflexivity|].
  cbn [validate_idempotency.check_plays forallb].
  rewrite <- IH, <- check_play_returns with (file_path := file_path).
  destruct (validate_idempotency.check_play play file_path); [|reflexivity].
  by destruct (validate_idempotency.check_plays rest file_path).
Qed.

(** A file makes the idempotency checker raise exactly when a section of
    one of its plays is a scalar that cannot be iterated. *)
Lemma check_yaml_file_returns
    (file_path : Path) (opened : validate_idempotency.loaded) :
  returns (validate_idempotency.check_yaml_file file_path opened)
  = document_iterable opened.
Proof.
  destruct opened as [e|data]; [reflexivity|].
  destruct data as [|[]|z|s|[|play rest]|[|kv m]]; try reflexivity.
  - cbn. by destruct (z =? 0)%Z.
  - cbn. by destruct (String.eqb s "").
  - unfold validate_idempotency.check_yaml_file. cbn [truthy negb].
    apply check_plays_returns.
Qed.

Lemma idempotency_main_returns (r : repo validate_idempotency.loaded) :
  returns (idempotency_main.main r)
  = repo_all (fun _ opened => document_iterable opened) r.
Proof.
  unfold idempotency_main.main, idempotency_main.all_issues.
  rewrite <- (repo_all_ext _ _ r check_yaml_file_returns), <- walk_returns.
  by destruct (walk validate_idempotency.check_yaml_file r) as [[|i rest]|e].
Qed.

Lemma idempotency_main_zero (r : repo validate_idempotency.loaded) (issues : list string) :
  idempotency_main.all_issues r = Ret issues ->
  idempotency_main.main r = Ret 0%Z.
Proof.
  intros H. unfold idempotency_main.main. rewrite H. by destruct issues.
Qed.

Lemma darwin_main_returns (cwd : Path) (r : repo check_darwin_guards.opened) :
  returns (check_darwin_guards.main cwd r) = repo_all (printable cwd) r.
Proof.
  unfold check_darwin_guards.main, check_darwin_guards.all_issues.
  rewrite <- (repo_all_ext _ _ r (check_file_for_guards_returns cwd)),
    <- walk_returns.
  by destruct (walk (check_darwin_guards.check_file_for_guards cwd) r)
    as [[|i rest]|e].
Qed.

Lemma darwin_main_zero
    (cwd : Path) (r : repo check_darwin_guards.opened) (issues : list string) :
  check_darwin_guards.all_issues cwd r = Ret issues ->
  check_darwin_guards.main cwd r = Ret 0%Z.
Proof.
  intros H. unfold check_darwin_guards.main. rewrite H. by destruct issues.
Qed.

Lemma returns_zero (m : py Z) :
  returns m = true -> (forall z, m = Ret z -> z = 0%Z) -> m = Ret 0%Z.
Proof. destruct m as [z|e]; [|done]. intros _ H. by rewrite (H z). Qed.

Lemma structure_main_code (roles_dir : Path) (node : option fsnode)
    (errors : list string) :
  validate_structure.all_errors roles_dir node = Ret errors ->
  validate_structure.main roles_dir node
  = Ret (match errors with [] => 0%Z | _ => 1%Z end).
Proof.
  intros H. unfold validate_structure.main. rewrite H. by destruct errors.
Qed.

Lemma structure_all_errors_returns (roles_dir : Path) (entries : list (string * fsnode)) :
  returns (validate_structure.all_errors roles_dir (Some (Dir entries))) = true.
Proof.
  unfold validate_structure.all_errors, validate_structure.validate_role_structure.
  by destruct (List.filter _ entries).
Qed.

Lemma models_main_code (f : validate_models.vars_file) (errors : list string) :
  validate_models.errors_at_report f = Ret (Some errors) ->
  validate_models.main f = Ret (match errors with [] => 0%Z | _ => 1%Z end).
Proof.
  destruct f as [|e|vars_data]; try discriminate.
  unfold validate_models.errors_at_report, validate_models.main.
  destruct (negb (truthy vars_data)); [discriminate|].
  destruct (validate_models.get_models vars_data) as [models|e];
    [|discriminate].
  cbn. intros [= <-]. by destruct (validate_models.validate_model_structure models).
Qed.

Lemma models_main_early (f : validate_models.vars_file) :
  validate_models.errors_at_report f = Ret None ->
  validate_models.main f = Ret 1%Z.
Proof.
  destruct f as [|e|vars_data]; try reflexivity.
  unfold validate_models.errors_at_report, validate_models.main.
  destruct (negb (truthy vars_data)); [reflexivity|].
  by destruct (validate_models.get_models vars_data).
Qed.

Lemma models_main_returns (f : validate_models.vars_file) :
  returns (validate_models.main f) = vars_usable f.
Proof.
  destruct f as [|e|vars_data]; try reflexivity.
  unfold validate_models.main, vars_usable.
  destruct (negb (truthy vars_data)); [reflexivity|].
  destruct vars_data as [| | | | |d]; try reflexivity.
  cbn. by destruct (validate_models.validate_model_structure _).
Qed.

End ExitCodes.

Section ExitCodeClaim.

(** C7, as worded, fails twice.  The model validator returns 1 for a
    missing variables file, before any error list exists; and the
    idempotency checker returns no exit code at all for a play whose
    [tasks:] is empty, the iteration over the null raising. *)
Lemma C7_counterexample :
  ~ (forall f,
        validate_models.main f = Ret 1%Z
        <-> exists errors,
              validate_models.errors_at_report f = Ret (Some errors)
              /\ errors <> [])
  /\ ~ (forall r, idempotency_main.main r = Ret 0%Z).
Proof.
  split.
  - intros H.
    destruct (proj1 (H validate_models.VarsMissing) eq_refl)
      as (errors & Herr & _).
    discriminate Herr.
  - intros H. specialize (H sample.empty_tasks_repo).
    vm_compute in H. discriminate H.
Qed.

(** C7, amended.
    - The idempotency and the Darwin-guard entry points return 0 whenever
      they return, whatever their list of diagnostics holds; they do
      return when the roles path is absent or a directory and, for the
      first, every task section of every play can be iterated and, for
      the second, every reported file lies under the working directory.
    - The role-structure validator, given a roles directory, returns 1
      when its error list is not empty and 0 when it is.
    - The model validator returns 1 without an error list when the
      variables file is missing, unparsable or loads to a falsy value;
      once it has its error list it returns 1 when the list is not empty
      and 0 when it is; it returns in all cases but that of a truthy
      value that is not a mapping. *)
Theorem C7_exit_codes :
  (forall r issues,
      idempotency_main.all_issues r = Ret issues ->
      idempotency_main.main r = Ret 0%Z)
  /\ (forall r,
        repo_all (fun _ opened => document_iterable opened) r = true ->
        idempotency_main.main r = Ret 0%Z)
  /\ (forall cwd r issues,
        check_darwin_guards.all_issues cwd r = Ret issues ->
        check_darwin_guards.main cwd r = Ret 0%Z)
  /\ (forall cwd r,
        repo_all (printable cwd) r = true ->
        check_darwin_guards.main cwd r = Ret 0%Z)
  /\ (forall roles_dir entries,
        exists errors,
          validate_structure.all_errors roles_dir (Some (Dir entries))
          = Ret errors
          /\ validate_structure.main roles_dir (Some (Dir entries))
             = Ret (match errors with [] => 0%Z | _ => 1%Z end))
  /\ (forall f,
        validate_models.errors_at_report f = Ret None ->
        validate_models.main f = Ret 1%Z)
  /\ (forall f errors,
        validate_models.errors_at_report f = Ret (Some errors) ->
        validate_models.main f
        = Ret (match errors with [] => 0%Z | _ => 1%Z end))
  /\ (forall f,
        vars_usable f = true ->
        exists code, validate_models.main f = Ret code).
Proof.
  split; [exact idempotency_main_zero|].
  split.
  { intros r Hr. apply returns_zero.
    - by rewrite idempotency_main_returns.
    - intros z Hz. unfold idempotency_main.main in Hz.
      destruct (idempotency_main.all_issues r) as [[|i rest]|e];
        by inversion Hz. }
  split; [exact darwin_main_zero|].
  split.
  { intros cwd r Hr. apply returns_zero.
    - by rewrite darwin_main_returns.
    - intros z Hz. unfold check_darwin_guards.main in Hz.
      destruct (check_darwin_guards.all_issues cwd r) as [[|i rest]|e];
        by inversion Hz. }
  split.
  { intros roles_dir entries.
    pose proof (structure_all_errors_returns roles_dir entries) as Hret.
    destruct (validate_structure.all_errors roles_dir (Some (Dir entries)))
      as [errors|e] eqn:E; [|discriminate].
    exists errors. split; [reflexivity|].
    by apply structure_main_code. }
  split; [exact models_main_early|].
  split; [exact models_main_code|].
  intros f Hf. rewrite <- models_main_returns in Hf.
  destruct (validate_models.main f) as [code|e]; [by exists code | discriminate].
Qed.

Lemma C7_witness :
  idempotency_main.all_issues sample.idempotency_repo
  = Ret ["site.yml: Task 'Build the tool' uses 'shell' "
         +:+ "without changed_when, creates, or removes"]
  /\ idempotency_main.main sample.idempotency_repo = Ret 0%Z
  /\ check_darwin_guards.main sample.repo_root sample.darwin_repo = Ret 0%Z
  /\ validate_models.main validate_models.VarsMissing = Ret 1%Z
  /\ validate_models.main
       (validate_models.VarsLoaded (YMap sample.vars_two_llamas)) = Ret 1%Z.
Proof.
  destruct C7_exit_codes
    as (Hidem & _ & _ & Hdarwin & _ & Hearly & Hcode & _).
  split; [reflexivity|].
  split; [exact (Hidem sample.idempotency_repo _ eq_refl)|].
  split; [by apply Hdarwin|].
  split; [by apply Hearly|].
  exact (Hcode (validate_models.VarsLoaded (YMap sample.vars_two_llamas))
           _ eq_refl).
Defined.

End ExitCodeClaim.

(* ===================================================================== *)
(** ** Properties of the model validator *)
(* ===================================================================== *)

Section ModelFacts.
Import validate_models.

(** An entry that passes every check adds its name to [seen_names] and
    is reported only if the name was there already. *)
Lemma check_model_valid (idx : nat) (model : yaml) (name : string)
    (seen_names : gset string) :
  valid_model name model ->
  check_model idx model seen_names
  = ({[ name ]} ∪ seen_names,
     if decide (name ∈ seen_names) then [duplicate_error name] else []).
Proof.
  intros (m & -> & Hname & Hstrip & Hstate). unfold check_model.
  rewrite Hname. apply String.eqb_neq in Hstrip. rewrite Hstrip.
  f_equal.
  destruct (dict_get "state" m) as [state|].
  - rewrite Hstate. cbn [negb]. apply app_nil_r.
  - apply app_nil_r.
Qed.

Lemma check_models_valid (models : list yaml) (names : list string)
    (idx : nat) (seen_names : gset string) :
  Forall2 valid_model names models ->
  check_models idx models seen_names
  = map duplicate_error (repeated seen_names names).
Proof.
  intros Hvalid. revert idx seen_names.
  induction Hvalid as [|name model names models Hv _ IH];
    intros idx seen_names; [reflexivity|].
  cbn [check_models repeated]. rewrite (check_model_valid _ _ name) by done.
  rewrite map_app, IH. by destruct (decide (name ∈ seen_names)).
Qed.

Lemma validate_list (models : list yaml) :
  validate_model_structure (YList models) = check_models 0 models ∅.
Proof. by destruct models. Qed.

Lemma repeated_fresh (names : list string) (seen : gset string) :
  NoDup names -> (forall n, n ∈ names -> n ∉ seen) ->
  repeated seen names = [].
Proof.
  intros Hnd. revert seen.
  induction Hnd as [|n names Hn Hnd IH]; intros seen Hfresh; [reflexivity|].
  cbn [repeated]. rewrite decide_False by (apply Hfresh; set_solver).
  apply IH. intros x Hx. specialize (Hfresh x). set_solver.
Qed.

Lemma repeated_second (b c : list string) (n : string) (seen : gset string) :
  n ∈ seen -> NoDup (b ++ c) -> n ∉ b ++ c ->
  (forall x, x ∈ b ++ c -> x ∉ seen) ->
  repeated seen (b ++ n :: c) = [n].
Proof.
  revert seen. induction b as [|y b IH]; intros seen Hn Hnd Hnotin Hfresh.
  - cbn [app repeated]. rewrite decide_True by done.
    rewrite repeated_fresh; [reflexivity|done|].
    intros x Hx. specialize (Hfresh x). set_solver.
  - cbn [app repeated]. rewrite decide_False by (apply Hfresh; set_solver).
    cbn [app] in Hnd. apply NoDup_cons in Hnd as [Hy Hnd].
    apply IH; [set_solver|done|set_solver|].
    intros x Hx. specialize (Hfresh x). set_solver.
Qed.

Lemma repeated_twice (a b c : list string) (n : string) (seen : gset string) :
  NoDup (a ++ n :: b ++ c) ->
  (forall x, x ∈ a ++ n :: b ++ c -> x ∉ seen) ->
  repeated seen (a ++ n :: b ++ n :: c) = [n].
Proof.
  revert seen. induction a as [|y a IH]; intros seen Hnd Hfresh.
  - cbn [app repeated] in *. apply NoDup_cons in Hnd as [Hn Hnd].
    rewrite decide_False by (apply Hfresh; set_solver).
    apply repeated_second; [set_solver|done|done|].
    intros x Hx. specialize (Hfresh x). set_solver.
  - cbn [app repeated] in *. apply NoDup_cons in Hnd as [Hy Hnd].
    rewrite decide_False by (apply Hfresh; set_solver).
    apply IH; [done|].
    intros x Hx. specialize (Hfresh x). set_solver.
Qed.

End ModelFacts.

Section ModelClaims.
Import validate_models.

(** C8.  A list of entries that pass every check, in which one name is
    borne by two entries and every other name by one: exactly one error,
    the duplicate-name error.  It belongs to the second of the two
    entries: the list cut before that entry is accepted without error,
    the first occurrence included, and the error is there as soon as the
    second occurrence is.  With nothing before, between and after, this
    is the list of two entries. *)
Theorem C8_one_duplicate_error
    (pre mid post : list yaml) (first second : yaml) (name : string)
    (names_pre names_mid names_post : list string) :
  Forall2 valid_model names_pre pre ->
  Forall2 valid_model names_mid mid ->
  Forall2 valid_model names_post post ->
  valid_model name first ->
  valid_model name second ->
  NoDup (names_pre ++ name :: names_mid ++ names_post) ->
  validate_model_structure (YList (pre ++ first :: mid ++ second :: post))
  = [duplicate_error name]
  /\ validate_model_structure (YList (pre ++ [first])) = []
  /\ validate_model_structure (YList (pre ++ first :: mid)) = []
  /\ validate_model_structure (YList (pre ++ first :: mid ++ [second]))
     = [duplicate_error name].
Proof.
  intros Hpre Hmid Hpost Hfirst Hsecond Hnd.
  assert (Hnd' : NoDup (names_pre ++ name :: names_mid)).
  { replace (names_pre ++ name :: names_mid ++ names_post)
      with ((names_pre ++ name :: names_mid) ++ names_post) in Hnd
      by (by rewrite <- app_assoc).
    by apply NoDup_app in Hnd as (Hnd & _ & _). }
  assert (Hnd'' : NoDup (names_pre ++ [name])).
  { replace (names_pre ++ name :: names_mid)
      with ((names_pre ++ [name]) ++ names_mid) in Hnd'
      by (by rewrite <- app_assoc).
    by apply NoDup_app in Hnd' as (Hnd' & _ & _). }
  rewrite !validate_list. repeat split.
  - rewrite (check_models_valid _
               (names_pre ++ name :: names_mid ++ name :: names_post)).
    + rewrite repeated_twice; [reflexivity|done|set_solver].
    + apply Forall2_app; [done|]. constructor; [done|].
      apply Forall2_app; [done|]. by constructor.
  - rewrite (check_models_valid _ (names_pre ++ [name])).
    + rewrite repeated_fresh; [reflexivity|done|set_solver].
    + apply Forall2_app; [done|]. by repeat constructor.
  - rewrite (check_models_valid _ (names_pre ++ name :: names_mid)).
    + rewrite repeated_fresh; [reflexivity|done|set_solver].
    + apply Forall2_app; [done|]. by constructor.
  - rewrite (check_models_valid _
               (names_pre ++ name :: names_mid ++ name :: [])).
    + rewrite repeated_twice; [reflexivity| |set_solver].
      by rewrite app_nil_r.
    + apply Forall2_app; [done|]. constructor; [done|].
      apply Forall2_app; [done|]. by repeat constructor.
Qed.

Lemma sample_llama_valid : valid_model "llama3:8b" sample.llama.
Proof. exists [("name", YStr "llama3:8b")]. by repeat split. Qed.

Lemma sample_llama_present_valid :
  valid_model "llama3:8b" sample.llama_present.
Proof.
  exists [("name", YStr "llama3:8b"); ("state", YStr "present")].
  by repeat split.
Qed.

Lemma sample_nomic_valid : valid_model "nomic-embed-text" sample.nomic.
Proof. exists [("name", YStr "nomic-embed-text")]. by repeat split. Qed.

Lemma C8_witness :
  validate_model_structure (YList [sample.llama; sample.llama_present])
  = [duplicate_error "llama3:8b"]
  /\ validate_model_structure (YList [sample.llama]) = []
  /\ validate_model_structure
       (YList [sample.llama; sample.nomic; sample.llama_present])
     = [duplicate_error "llama3:8b"].
Proof.
  split; [|split].
  - apply (C8_one_duplicate_error [] [] [] sample.llama sample.llama_present
             "llama3:8b" [] [] []);
      try constructor;
      auto using sample_llama_valid, sample_llama_present_valid.
    + set_solver.
    + constructor.
  - apply (C8_one_duplicate_error [] [] [] sample.llama sample.llama_present
             "llama3:8b" [] [] []);
      try constructor;
      auto using sample_llama_valid, sample_llama_present_valid.
    + set_solver.
    + constructor.
  - apply (C8_one_duplicate_error [] [sample.nomic] [] sample.llama
             sample.llama_present "llama3:8b" [] ["nomic-embed-text"] []);
      try (repeat constructor; done);
      auto using sample_llama_valid, sample_llama_present_valid.
    + repeat constructor. apply sample_nomic_valid.
    + apply NoDup_cons. split; [set_solver|]. apply NoDup_singleton.
Defined.

(** One step of the loop on an entry whose name is white space only: the
    cannot-be-empty error, and [seen_names] as it was. *)
Lemma check_model_blank_name
    (idx : nat) (m : dict) (name : string) (seen_names : gset string) :
  dict_get "name" m = Some (YStr name) ->
  all_space name = true ->
  check_model idx (YMap m) seen_names = (seen_names, [empty_name_error idx]).
Proof.
  intros Hname Hspace. unfold check_model. rewrite Hname.
  by rewrite (strip_all_space name Hspace).
Qed.

(** The loop over valid entries followed by anything: the duplicate errors
    of the valid entries, then the rest checked from its own position with
    the names met so far. *)
Lemma check_models_valid_prefix (before : list yaml) (names : list string) :
  Forall2 valid_model names before ->
  forall seen, exists seen',
    forall idx rest,
      check_models idx (before ++ rest) seen
      = map duplicate_error (repeated seen names)
        ++ check_models (idx + length before) rest seen'.
Proof.
  induction 1 as [|name model names before Hvalid _ IH]; intros seen.
  - exists seen. intros idx rest. cbn [app repeated map length].
    by rewrite Nat.add_0_r.
  - destruct (IH ({[ name ]} ∪ seen)) as [seen' Hseen'].
    exists seen'. intros idx rest.
    cbn [app check_models repeated length].
    rewrite (check_model_valid idx model name) by done.
    rewrite Hseen', map_app, <- app_assoc.
    replace (S idx + length before) with (idx + S (length before)) by lia.
    by destruct (decide (name ∈ seen)).
Qed.

(** C9.  An entry whose name is a non-empty string of white space,
    standing anywhere among entries that pass every check: the validator
    returns the errors of the list without that entry, with the
    cannot-be-empty error of the entry, at its position, put in where the
    entry stands.  So the entry is rejected, nothing else is reported for
    it whatever its [state] is, and the others are checked as if it were
    not there.  The name is not recorded either: the same blank name twice
    gives the cannot-be-empty error twice and no duplicate error. *)
Theorem C9_blank_name_is_rejected
    (before after : list yaml) (names_before names_after : list string)
    (m : dict) (name : string) :
  dict_get "name" m = Some (YStr name) ->
  name <> "" ->
  all_space name = true ->
  Forall2 valid_model names_before before ->
  Forall2 valid_model names_after after ->
  (exists rest,
      validate_model_structure (YList (before ++ after))
      = validate_model_structure (YList before) ++ rest
      /\ validate_model_structure (YList (before ++ YMap m :: after))
         = validate_model_structure (YList before)
           ++ ("Model at index " +:+ pystr.of_nat (length before)
               +:+ ": 'name' cannot be empty") :: rest)
  /\ validate_model_structure (YList [YMap m; YMap m])
     = ["Model at index 0: 'name' cannot be empty";
        "Model at index 1: 'name' cannot be empty"].
Proof.
  intros Hname _ Hspace Hbefore Hafter. split.
  - destruct (check_models_valid_prefix before names_before Hbefore ∅)
      as [seen' Hseen'].
    exists (map duplicate_error (repeated seen' names_after)).
    rewrite !validate_list, !Hseen'.
    rewrite (check_models_valid before names_before) by done.
    cbn [check_models].
    rewrite (check_model_blank_name _ m name) by done.
    by rewrite !(check_models_valid after names_after) by done.
  - rewrite validate_list. cbn [check_models].
    by rewrite !(check_model_blank_name _ m name) by done.
Qed.

Lemma C9_witness :
  validate_model_structure
    (YList [sample.llama; YMap sample.blank_model; sample.llama_present])
  = ["Model at index 1: 'name' cannot be empty";
     "Duplicate model name: 'llama3:8b'"].
Proof.
  destruct (C9_blank_name_is_rejected [sample.llama] [sample.llama_present]
              ["llama3:8b"] ["llama3:8b"] sample.blank_model sample.blank_name)
    as [(rest & Hwithout & Hwith) _].
  - reflexivity.
  - discriminate.
  - reflexivity.
  - repeat constructor. apply sample_llama_valid.
  - repeat constructor. apply sample_llama_present_valid.
  - cbn [app length] in Hwithout, Hwith. rewrite Hwith.
    change (validate_model_structure (YList [sample.llama])) with (@nil string)
      in Hwithout |- *.
    cbn [app] in Hwithout |- *. rewrite <- Hwithout. reflexivity.
Defined.

(** C10, as worded, fails for the empty mapping: the key is absent, yet
    [main] takes the falsy value for an empty or invalid file and returns 1
    before it looks for the key. *)
Lemma C10_counterexample :
  ~ (forall d,
        dict_get "ollama_models" d = None ->
        main (VarsLoaded (YMap d)) = Ret 0%Z).
Proof. intros H. specialize (H [] eq_refl). discriminate H. Qed.

(** C10, amended.  Without the key [ollama_models] the list of models is
    the empty list, which has no error, and the exit code is 0 when the
    mapping has some other key.  With the key bound the value is taken as
    it is, never the default; if it is not a list, null included, the only
    error is the must-be-a-list error naming its type, and the exit code
    is 1. *)
Theorem C10_absent_key_or_not_a_list (d : dict) :
  (dict_get "ollama_models" d = None ->
   get_models (YMap d) = Ret (YList [])
   /\ validate_model_structure (YList []) = []
   /\ (d <> [] ->
       errors_at_report (VarsLoaded (YMap d)) = Ret (Some [])
       /\ main (VarsLoaded (YMap d)) = Ret 0%Z))
  /\ (forall v,
        dict_get "ollama_models" d = Some v ->
        get_models (YMap d) = Ret v
        /\ ((forall items, v <> YList items) ->
            errors_at_report (VarsLoaded (YMap d))
            = Ret (Some ["ollama_models must be a list, got " +:+ type_name v])
            /\ main (VarsLoaded (YMap d)) = Ret 1%Z)).
Proof.
  split.
  - intros Habsent. unfold get_models. rewrite Habsent.
    split; [reflexivity|]. split; [reflexivity|].
    intros Hd.
    assert (Htruthy : truthy (YMap d) = true) by by destruct d.
    unfold main, errors_at_report, get_models.
    by rewrite Htruthy, Habsent.
  - intros v Hv. unfold get_models at 1. rewrite Hv.
    split; [reflexivity|]. intros Hnotlist.
    assert (Htruthy : truthy (YMap d) = true) by by destruct d.
    unfold main, errors_at_report, get_models.
    rewrite Htruthy, Hv.
    destruct v as [| | | |items|]; try by split.
    by destruct (Hnotlist items).
Qed.

Lemma C10_witness :
  main (VarsLoaded (YMap sample.vars_without_models)) = Ret 0%Z
  /\ errors_at_report (VarsLoaded (YMap sample.vars_null_models))
     = Ret (Some ["ollama_models must be a list, got NoneType"])
  /\ main (VarsLoaded (YMap sample.vars_null_models)) = Ret 1%Z.
Proof.
  split.
  - apply (proj1 (C10_absent_key_or_not_a_list sample.vars_without_models));
      [reflexivity | discriminate].
  - apply (proj2 (C10_absent_key_or_not_a_list sample.vars_null_models) YNull);
      [reflexivity | discriminate].
Defined.

(** The empty mapping is falsy: [main] stops before it looks for the key. *)
Lemma empty_vars_exit_code : main (VarsLoaded (YMap [])) = Ret 1%Z.
Proof. reflexivity. Qed.

End ModelClaims.


(* ===================================================================== *)
(** ** Further properties of the idempotency checker *)
(* ===================================================================== *)

Section TaskExtras.
Import validate_idempotency.

Lemma module_key_is_a_key (task : dict) : In (module_key task) shell_command_keys.
Proof.
  unfold module_key.
  destruct (uses_shell task).
  - destruct (dict_has "shell" task); cbn; auto.
  - destruct (dict_has "command" task); cbn; auto.
Qed.

(** What the checker finds as a guard argument, the wording of the
    specification finds too. *)
Lemma has_arg_spec_carries (arg : string) (task : dict) :
  has_arg arg task = true -> spec_carries arg task = true.
Proof.
  unfold has_arg, spec_carries.
  destruct (uses_shell task || uses_command task); [|discriminate].
  cbn [andb]. intros [Hmod | Hargs]%orb_true_iff; apply orb_true_iff.
  - left. apply existsb_exists. exists (module_key task).
    split; [apply module_key_is_a_key | exact Hmod].
  - by right.
Qed.

(** X1.  Whatever the task, the checker returns at most one diagnostic for
    it: the unguarded-task diagnostic needs [changed_when] to be absent, the
    disables-idempotency diagnostic needs it to be present, and the raw
    branch returns on its own. *)
Theorem X1_at_most_one_diagnostic (task : dict) (file_path : Path) (idx : nat) :
  length (check_task_idempotency task file_path idx) <= 1.
Proof.
  destruct (uses_raw task) eqn:Hr.
  - destruct (raw_task_outcomes task file_path idx Hr) as [-> | ->]; cbn; lia.
  - destruct (uses_shell task || uses_command task) eqn:Hsc.
    + rewrite check_shell_command by done. unfold dict_has.
      destruct (dict_get "changed_when" task) as [[|[]| | | |]|];
        cbn [orb app length]; try lia.
      destruct (has_arg "creates" task || has_arg "removes" task); cbn; lia.
    + apply orb_false_iff in Hsc as [Hs Hc].
      rewrite check_other_module by done. cbn. lia.
Qed.

(** X2.  A shell or command task that is not a raw task, has no
    [changed_when], and has [creates] or [removes] neither in the mapping of
    any of its module keys nor in its [args]: exactly the unguarded-task
    diagnostic, which names shell whenever one of the two shell keys is
    present, and command otherwise. *)
Theorem X2_unguarded_task_is_reported
    (task : dict) (file_path : Path) (idx : nat) :
  uses_shell task || uses_command task = true ->
  uses_raw task = false ->
  dict_has "changed_when" task = false ->
  spec_carries "creates" task = false ->
  spec_carries "removes" task = false ->
  check_task_idempotency task file_path idx
  = [path.name file_path +:+ ": Task '" +:+ task_name_of task idx
     +:+ "' uses '" +:+ (if uses_shell task then "shell" else "command")
     +:+ "' " +:+ "without changed_when, creates, or removes"].
Proof.
  intros Hsc Hr Hcw Hcreates Hremoves.
  rewrite check_shell_command by done.
  assert (Hc : has_arg "creates" task = false).
  { apply not_true_is_false. intros H%has_arg_spec_carries. congruence. }
  assert (Hrm : has_arg "removes" task = false).
  { apply not_true_is_false. intros H%has_arg_spec_carries. congruence. }
  rewrite Hcw, Hc, Hrm. cbn [orb].
  unfold dict_has in Hcw.
  destruct (dict_get "changed_when" task); [discriminate|].
  by rewrite app_nil_r.
Qed.

Lemma X2_witness :
  check_task_idempotency sample.build_task sample.role_tasks_file 2
  = ["main.yml: Task 'Build the tool' uses 'shell' "
     +:+ "without changed_when, creates, or removes"].
Proof.
  apply (X2_unguarded_task_is_reported sample.build_task
           sample.role_tasks_file 2); reflexivity.
Defined.

(** X3.  On a shell or command task that is not a raw task, a
    [changed_when] of any value but the boolean true (false, null, a
    string, a list) leaves nothing to report, whatever else the task
    holds. *)
Theorem X3_changed_when_not_true_is_clean
    (task : dict) (file_path : Path) (idx : nat) (v : yaml) :
  uses_shell task || uses_command task = true ->
  uses_raw task = false ->
  dict_get "changed_when" task = Some v ->
  v <> YBool true ->
  check_task_idempotency task file_path idx = [].
Proof.
  intros Hsc Hr Hv Hne.
  rewrite check_shell_command by done.
  unfold dict_has. rewrite Hv. cbn [orb app].
  destruct v as [|[]| | | |]; congruence.
Qed.

Lemma X3_witness :
  check_task_idempotency sample.expression_task sample.role_tasks_file 0 = [].
Proof.
  apply (X3_changed_when_not_true_is_clean sample.expression_task
           sample.role_tasks_file 0 (YStr "true"));
    [reflexivity | reflexivity | reflexivity | discriminate].
Defined.

(** X4.  [removes] is a guard where [creates] is: in the task-level [args]
    mapping or in the mapping under the inspected module key of a shell or
    command task it keeps the unguarded-task diagnostic away. *)
Theorem X4_removes_is_a_guard (task : dict) (file_path : Path) (idx : nat) :
  uses_shell task || uses_command task = true ->
  mapping_has "removes" (dict_get (module_key task) task) = true
  \/ mapping_has "removes" (dict_get "args" task) = true ->
  count_issues is_unguarded_issue
    (check_task_idempotency task file_path idx) = 0.
Proof. apply guarded_no_unguarded_issue. by right. Qed.

End TaskExtras.

Lemma X4_witness :
  count_issues is_unguarded_issue
    (validate_idempotency.check_task_idempotency sample_more.removes_task
       sample.role_tasks_file 0) = 0.
Proof.
  apply X4_removes_is_a_guard; [reflexivity | right; reflexivity].
Defined.

Section FileExtras.
Import validate_idempotency.

(** X5.  A document that is not a sequence (a mapping such as a variables
    file, a scalar, null) is passed over: no diagnostic and no error,
    whatever it holds. *)
Theorem X5_not_a_sequence_is_skipped (file_path : Path) (data : yaml) :
  (forall items, data <> YList items) ->
  check_yaml_file file_path (Loaded data) = Ret [].
Proof.
  intros Hdata. unfold check_yaml_file.
  destruct data as [| | | |items|]; try by destruct (negb _).
  by destruct (Hdata items).
Qed.

Lemma X5_witness :
  check_yaml_file sample.site_playbook (Loaded sample_more.vars_document)
  = Ret [].
Proof. apply X5_not_a_sequence_is_skipped. discriminate. Defined.

Lemma check_section_raises (section : string) (play : dict) (file_path : Path) (e : exn) :
  check_section section play file_path = Raise e -> exists msg, e = TypeError msg.
Proof.
  unfold check_section.
  destruct (default (YList []) (dict_get section play)); cbn;
    intros [= <-]; eauto.
Qed.

Lemma check_play_raises (play : yaml) (file_path : Path) (e : exn) :
  check_play play file_path = Raise e -> exists msg, e = TypeError msg.
Proof.
  destruct play as [| | | | |p]; try discriminate.
  unfold check_play.
  destruct (check_section "pre_tasks" p file_path) eqn:Hpre;
    [|intros [= <-]; by eapply check_section_raises].
  destruct (check_section "tasks" p file_path) eqn:Hmid;
    [|intros [= <-]; by eapply check_section_raises].
  destruct (check_section "post_tasks" p file_path) eqn:Hpost;
    [discriminate|intros [= <-]; by eapply check_section_raises].
Qed.

Lemma check_plays_raises (plays : list yaml) (file_path : Path) (e : exn) :
  check_plays plays file_path = Raise e -> exists msg, e = TypeError msg.
Proof.
  induction plays as [|play rest IH]; [discriminate|].
  cbn [check_plays].
  destruct (check_play play file_path) eqn:Hplay;
    [|intros [= <-]; by eapply check_play_raises].
  destruct (check_plays rest file_path); [discriminate|].
  intros [= <-]. by apply IH.
Qed.

Lemma is_collection_iterable (v : yaml) : is_collection v = iterable v.
Proof. by destruct v. Qed.

Lemma sections_are_collections_iterable (plays : list yaml) :
  sections_are_collections plays = forallb play_iterable plays.
Proof.
  unfold sections_are_collections. apply forallb_pointwise.
  by intros [| | | | |p].
Qed.

Lemma scalar_section_not_iterable (plays : list yaml) :
  has_scalar_section plays = true -> forallb play_iterable plays = false.
Proof.
  intros (play & Hin & Hplay)%existsb_exists.
  apply not_true_is_false. intros Hall.
  pose proof (proj1 (forallb_forall _ _) Hall play Hin) as Hiter.
  destruct play as [| | | | |p]; try discriminate.
  apply existsb_exists in Hplay as (section & Hsec & Hscalar).
  cbn [play_iterable] in Hiter.
  pose proof (proj1 (forallb_forall _ _) Hiter section Hsec) as Hone.
  cbn beta in Hone. revert Hone Hscalar.
  by destruct (dict_get section p) as [[| | | | |]|].
Qed.

(** X6.  A playbook in which every [pre_tasks], [tasks] and [post_tasks]
    value is a sequence, a string or a mapping gives a list of
    diagnostics.  A playbook in which some play binds one of the three to
    null, a boolean or an integer makes the checker raise a [TypeError],
    and the diagnostics of the whole file are lost. *)
Theorem X6_scalar_section_raises (file_path : Path) (plays : list yaml) :
  (sections_are_collections plays = true ->
   exists issues, check_yaml_file file_path (Loaded (YList plays)) = Ret issues)
  /\ (has_scalar_section plays = true ->
      exists msg,
        check_yaml_file file_path (Loaded (YList plays)) = Raise (TypeError msg)).
Proof.
  pose proof (check_yaml_file_returns file_path (Loaded (YList plays))) as Hret.
  cbn [document_iterable] in Hret. split.
  - rewrite sections_are_collections_iterable. intros Hall.
    rewrite Hall in Hret.
    destruct (check_yaml_file file_path (Loaded (YList plays))) as [issues|e];
      [by exists issues | discriminate].
  - intros Hscalar%scalar_section_not_iterable. rewrite Hscalar in Hret.
    destruct (check_yaml_file file_path (Loaded (YList plays))) as [issues|e] eqn:E;
      [discriminate|].
    unfold check_yaml_file in E.
    destruct (negb (truthy (YList plays))); [discriminate|].
    destruct (check_plays_raises plays file_path e E) as [msg ->].
    by exists msg.
Qed.

Lemma X6_witness :
  (exists issues,
      check_yaml_file sample.site_playbook
        (Loaded (YList [sample_more.first_play; sample_more.second_play]))
      = Ret issues)
  /\ (exists msg,
        check_yaml_file sample.site_playbook
          (Loaded sample.empty_tasks_playbook) = Raise (TypeError msg)).
Proof.
  split.
  - apply (proj1 (X6_scalar_section_raises sample.site_playbook
                    [sample_more.first_play; sample_more.second_play])).
    reflexivity.
  - apply (proj2 (X6_scalar_section_raises sample.site_playbook
                    [YMap [("hosts", YStr "all"); ("tasks", YNull)]])).
    reflexivity.
Defined.

End FileExtras.

(* ===================================================================== *)
(** ** Further properties of the Darwin checker *)
(* ===================================================================== *)

Section MatcherFacts.

Lemma lower_char_idem (c : ascii) :
  pystr.lower_char (pystr.lower_char c) = pystr.lower_char c.
Proof. destruct c as [[] [] [] [] [] [] [] []]; vm_compute; reflexivity. Qed.

Lemma isspace_lower_char (c : ascii) :
  pystr.isspace (pystr.lower_char c) = pystr.isspace c.
Proof. destruct c as [[] [] [] [] [] [] [] []]; vm_compute; reflexivity. Qed.

Lemma newline_lower_char (c : ascii) :
  Ascii.eqb (pystr.lower_char c) pystr.newline = Ascii.eqb c pystr.newline.
Proof. destruct c as [[] [] [] [] [] [] [] []]; vm_compute; reflexivity. Qed.

Lemma cls_matches_lower_char (a : re.cls) (c : ascii) :
  re.cls_matches a (pystr.lower_char c) = re.cls_matches a c.
Proof.
  destruct a as [l| | |cs]; cbn [re.cls_matches].
  - by rewrite lower_char_idem.
  - by rewrite newline_lower_char.
  - apply isspace_lower_char.
  - induction cs as [|l cs IH]; [reflexivity|].
    cbn [existsb]. by rewrite IH, lower_char_idem.
Qed.

Lemma at_end_lower (s : string) : re.at_end (pystr.lower s) = re.at_end s.
Proof.
  destruct s as [|c [|d s]]; try reflexivity.
  cbn [pystr.lower re.at_end]. apply newline_lower_char.
Qed.

(** The equations of the matcher, one for each kind of item. *)
Lemma match_here_eos (r : list re.item) (s : string) :
  re.match_here (re.Eos :: r) s
  = if re.at_end s then re.match_here r s else false.
Proof. reflexivity. Qed.

Lemma match_here_one (a : re.cls) (r : list re.item) (s : string) :
  re.match_here (re.Item a re.One :: r) s
  = match s with
    | String c s' => if re.cls_matches a c then re.match_here r s' else false
    | EmptyString => false
    end.
Proof. reflexivity. Qed.

Lemma match_here_opt (a : re.cls) (r : list re.item) (s : string) :
  re.match_here (re.Item a re.Opt :: r) s
  = if re.match_here r s then true
    else match s with
         | String c s' => if re.cls_matches a c then re.match_here r s' else false
         | EmptyString => false
         end.
Proof. reflexivity. Qed.

Lemma match_here_star (a : re.cls) (r : list re.item) (s : string) :
  re.match_here (re.Item a re.Star :: r) s
  = if re.match_here r s then true
    else match s with
         | String c s' =>
             if re.cls_matches a c
             then re.match_here (re.Item a re.Star :: r) s' else false
         | EmptyString => false
         end.
Proof. destruct s; reflexivity. Qed.

Lemma match_here_star_cons (a : re.cls) (r : list re.item) (c : ascii) (s : string) :
  re.match_here (re.Item a re.Star :: r) (String c s)
  = if re.match_here r (String c s) then true
    else if re.cls_matches a c
         then re.match_here (re.Item a re.Star :: r) s else false.
Proof. reflexivity. Qed.

Lemma match_here_opt_cons (a : re.cls) (r : list re.item) (c : ascii) (s : string) :
  re.match_here (re.Item a re.Opt :: r) (String c s)
  = if re.match_here r (String c s) then true
    else if re.cls_matches a c then re.match_here r s else false.
Proof. reflexivity. Qed.

Lemma match_here_plus (a : re.cls) (r : list re.item) (s : string) :
  re.match_here (re.Item a re.Plus :: r) s
  = match s with
    | String c s' =>
        if re.cls_matches a c
        then re.match_here (re.Item a re.Star :: r) s' else false
    | EmptyString => false
    end.
Proof. destruct s; reflexivity. Qed.

Lemma search_items_eq (its : list re.item) (s : string) :
  re.search_items its s
  = if re.match_here its s then true
    else match s with
         | String _ s' => re.search_items its s'
         | EmptyString => false
         end.
Proof. destruct s; reflexivity. Qed.

Lemma search_items_cons (its : list re.item) (c : ascii) (s : string) :
  re.search_items its (String c s)
  = if re.match_here its (String c s) then true else re.search_items its s.
Proof. reflexivity. Qed.

(** Lower-casing the text changes no match. *)
Lemma match_here_lower (its : list re.item) (s : string) :
  re.match_here its (pystr.lower s) = re.match_here its s.
Proof.
  revert s. induction its as [|it r IH]; intros s; [reflexivity|].
  destruct it as [a q|]; [|by rewrite !match_here_eos, at_end_lower, IH].
  assert (Hstar : forall s,
             re.match_here (re.Item a re.Star :: r) (pystr.lower s)
             = re.match_here (re.Item a re.Star :: r) s).
  { clear s. induction s as [|c s IHs]; [reflexivity|].
    cbn [pystr.lower]. rewrite !match_here_star_cons.
    change (String (pystr.lower_char c) (pystr.lower s))
      with (pystr.lower (String c s)).
    by rewrite IH, cls_matches_lower_char, IHs. }
  destruct q.
  - rewrite !match_here_one. destruct s as [|c s]; [reflexivity|].
    cbn [pystr.lower]. by rewrite cls_matches_lower_char, IH.
  - rewrite !match_here_opt, IH. destruct s as [|c s]; [reflexivity|].
    cbn [pystr.lower]. by rewrite cls_matches_lower_char, IH.
  - apply Hstar.
  - rewrite !match_here_plus. destruct s as [|c s]; [reflexivity|].
    cbn [pystr.lower]. by rewrite cls_matches_lower_char, Hstar.
Qed.

Lemma search_items_lower (its : list re.item) (s : string) :
  re.search_items its (pystr.lower s) = re.search_items its s.
Proof.
  induction s as [|c s IH].
  - reflexivity.
  - rewrite (search_items_eq its (String c s)).
    rewrite (search_items_eq its (pystr.lower (String c s))).
    rewrite match_here_lower. cbn [pystr.lower]. by rewrite IH.
Qed.

Lemma search_lower (pattern s : string) :
  re.search pattern (pystr.lower s) = re.search pattern s.
Proof.
  unfold re.search. destruct (re.compile pattern); [|reflexivity].
  apply search_items_lower.
Qed.

(** A match of a pattern without anchor stays when text is added after
    it, and a match found by the search stays when text is added on both
    sides. *)
Lemma match_here_extend (its : list re.item) (s t : string) :
  eos_free its = true ->
  re.match_here its s = true -> re.match_here its (s +:+ t) = true.
Proof.
  revert s. induction its as [|it r IH]; intros s Hfree; [reflexivity|].
  destruct it as [a q|]; [|discriminate].
  change (eos_free r = true) in Hfree.
  assert (Hstar : forall s,
             re.match_here (re.Item a re.Star :: r) s = true ->
             re.match_here (re.Item a re.Star :: r) (s +:+ t) = true).
  { clear s. induction s as [|c s IHs].
    - rewrite match_here_star. destruct (re.match_here r "") eqn:Hr;
        [|discriminate].
      intros _. rewrite match_here_star. by rewrite (IH "" Hfree Hr).
    - rewrite match_here_star_cons.
      destruct (re.match_here r (String c s)) eqn:Hr.
      + intros _. rewrite match_here_star. by rewrite (IH _ Hfree Hr).
      + destruct (re.cls_matches a c) eqn:Hc; [|discriminate].
        intros Hs. rewrite append_cons, match_here_star_cons, Hc, (IHs Hs).
        by destruct (re.match_here r (String c (s +:+ t))). }
  destruct q.
  - rewrite !match_here_one. destruct s as [|c s]; [discriminate|].
    rewrite append_cons. cbv iota.
    destruct (re.cls_matches a c); [|discriminate].
    by apply IH.
  - rewrite (match_here_opt a r s).
    destruct (re.match_here r s) eqn:Hr.
    + intros _. by rewrite match_here_opt, (IH s Hfree Hr).
    + destruct s as [|c s]; [discriminate|].
      rewrite append_cons, match_here_opt_cons.
      destruct (re.cls_matches a c); [|discriminate].
      intros Hs. rewrite (IH s Hfree Hs).
      by destruct (re.match_here r (String c (s +:+ t))).
  - apply Hstar.
  - rewrite !match_here_plus. destruct s as [|c s]; [discriminate|].
    rewrite append_cons. cbv iota.
    destruct (re.cls_matches a c); [|discriminate].
    apply Hstar.
Qed.

Lemma search_items_extend (its : list re.item) (before s after : string) :
  eos_free its = true ->
  re.search_items its s = true ->
  re.search_items its (before +:+ s +:+ after) = true.
Proof.
  intros Hfree Hs.
  assert (Hafter : re.search_items its (s +:+ after) = true).
  { clear before. induction s as [|c s IH].
    - rewrite search_items_eq in Hs.
      destruct (re.match_here its "") eqn:Hm; [|discriminate].
      rewrite search_items_eq.
      by rewrite (match_here_extend its "" after Hfree Hm).
    - rewrite search_items_cons in Hs.
      destruct (re.match_here its (String c s)) eqn:Hm.
      + by rewrite search_items_eq, (match_here_extend its _ after Hfree Hm).
      + rewrite append_cons, search_items_cons, (IH Hs).
        by destruct (re.match_here its (String c (s +:+ after))). }
  induction before as [|c before IH]; [exact Hafter|].
  rewrite append_cons, search_items_cons, IH.
  by destruct (re.match_here its (String c (before +:+ s +:+ after))).
Qed.

Lemma search_extend (pattern before s after : string) :
  unanchored pattern = true ->
  re.search pattern s = true ->
  re.search pattern (before +:+ s +:+ after) = true.
Proof.
  unfold unanchored, re.search.
  destruct (re.compile pattern) as [its|]; [|discriminate].
  apply search_items_extend.
Qed.

(** A pattern of literals is a test for a prefix, letter case apart. *)
Lemma match_here_literal (word s : string) :
  re.match_here (literal_items word) s
  = String.prefix (pystr.lower word) (pystr.lower s).
Proof.
  revert s. induction word as [|l word IH]; intros s.
  - by destruct s.
  - cbn [literal_items]. rewrite match_here_one.
    destruct s as [|c s]; [reflexivity|].
    cbn [pystr.lower String.prefix re.cls_matches].
    destruct (ascii_dec (pystr.lower_char l) (pystr.lower_char c)) as [Heq|Hne].
    + rewrite Heq, Ascii.eqb_refl. apply IH.
    + apply not_eq_sym, Ascii.eqb_neq in Hne. by rewrite Hne.
Qed.

Lemma search_items_literal (word s : string) :
  re.search_items (literal_items word) s
  = pystr.contains (pystr.lower word) (pystr.lower s).
Proof.
  induction s as [|c s IH].
  - rewrite search_items_eq, match_here_literal. cbn [pystr.lower pystr.contains].
    by destruct (String.prefix _ _).
  - rewrite search_items_cons, match_here_literal, IH.
    cbn [pystr.lower pystr.contains].
    by destruct (String.prefix _ _).
Qed.

End MatcherFacts.

Section DarwinExtras.
Import check_darwin_guards.

Lemma found_lower (content : string) :
  macos_indicators_found (pystr.lower content) = macos_indicators_found content.
Proof.
  unfold macos_indicators_found.
  induction MACOS_INDICATORS as [|p ps IH]; [reflexivity|].
  cbn [List.filter]. by rewrite search_lower, IH.
Qed.

Lemma has_guards_lower (content : string) :
  has_guards (pystr.lower content) = has_guards content.
Proof.
  unfold has_guards.
  induction DARWIN_GUARDS as [|p ps IH]; [reflexivity|].
  cbn [existsb]. by rewrite search_lower, IH.
Qed.

Lemma check_lower (cwd file_path : Path) (content : string) :
  check_file_for_guards cwd file_path (Content (pystr.lower content))
  = check_file_for_guards cwd file_path (Content content).
Proof.
  unfold check_file_for_guards. by rewrite found_lower, has_guards_lower.
Qed.

(** The anchored patterns are the three suffix indicators; every guard
    and every other indicator is without anchor. *)
Lemma unanchored_patterns :
  UNANCHORED_PATTERNS
  = List.filter (fun p => negb (existsb (String.eqb p) SUFFIX_INDICATORS))
      MACOS_INDICATORS ++ DARWIN_GUARDS.
Proof. vm_compute. reflexivity. Qed.

Lemma guards_unanchored (g : string) :
  In g DARWIN_GUARDS -> unanchored g = true.
Proof.
  intros Hg. cbn in Hg. destruct Hg as [<-|[<-|[<-|[]]]]; reflexivity.
Qed.

(** X8.  For texts of characters below code point 256, which is what
    [string] holds, the verdict on a file depends on its text only up to
    letter case: two such texts that are equal once lower-cased get the
    same result, with the same indicator patterns listed. *)
Theorem X8_letter_case_is_ignored
    (cwd file_path : Path) (content content' : string) :
  pystr.lower content = pystr.lower content' ->
  check_file_for_guards cwd file_path (Content content)
  = check_file_for_guards cwd file_path (Content content').
Proof.
  intros Heq.
  rewrite <- (check_lower cwd file_path content),
    <- (check_lower cwd file_path content').
  by rewrite Heq.
Qed.

Lemma X8_witness :
  check_file_for_guards sample.repo_root sample.role_tasks_file
    (Content "command: SoftwareUpdate --install")
  = check_file_for_guards sample.repo_root sample.role_tasks_file
      (Content "COMMAND: softwareupdate --INSTALL").
Proof. apply X8_letter_case_is_ignored. reflexivity. Defined.

(** X9.  One guard expression silences the whole file: if a piece of text
    matches a guard pattern, every file that contains the piece, whatever
    stands before and after it, gets no diagnostic. *)
Theorem X9_a_guard_anywhere_silences_the_file
    (cwd file_path : Path) (before piece after : string) :
  has_guards piece = true ->
  check_file_for_guards cwd file_path (Content (before +:+ piece +:+ after))
  = Ret [].
Proof.
  intros (g & Hg & Hmatch)%has_guards_true.
  apply check_guarded, has_guards_true. exists g. split; [done|].
  apply search_extend; [by apply guards_unanchored | done].
Qed.

Lemma X9_witness :
  check_file_for_guards sample.repo_root sample.role_tasks_file
    (Content (sample.brew_tasks +:+ sample_more.guard_line
              +:+ sample.viewer_tasks)) = Ret [].
Proof.
  apply X9_a_guard_anywhere_silences_the_file. reflexivity.
Defined.

(** X10.  A match of a guard, or of an indicator other than the three
    suffix ones, is not lost by adding text: what matches a piece of text
    matches every text that contains the piece. *)
Theorem X10_unanchored_matches_persist
    (pattern before piece after : string) :
  In pattern UNANCHORED_PATTERNS ->
  re.search pattern piece = true ->
  re.search pattern (before +:+ piece +:+ after) = true.
Proof.
  intros Hin. apply search_extend.
  unfold UNANCHORED_PATTERNS in Hin. by apply filter_In in Hin as [_ Hin].
Qed.

Lemma X10_witness :
  re.search "brew\s+" ("- name: x" +:+ pystr.NL +:+ "  shell: brew  install jq"
                      +:+ pystr.NL) = true.
Proof.
  apply (X10_unanchored_matches_persist "brew\s+"
           ("- name: x" +:+ pystr.NL +:+ "  shell: ")
           "brew  " ("install jq" +:+ pystr.NL)).
  - vm_compute. tauto.
  - reflexivity.
Defined.

Lemma plain_indicators :
  PLAIN_INDICATORS
  = [ "homebrew"; "launchd"; "xcode-select"; "softwareupdate";
      "/Applications/"; "darwin" ].
Proof. reflexivity. Qed.

Lemma plain_indicator_compiles (pattern : string) :
  In pattern PLAIN_INDICATORS ->
  re.compile pattern = Some (literal_items pattern).
Proof.
  rewrite plain_indicators. intros Hin. cbn in Hin.
  destruct Hin as [<-|[<-|[<-|[<-|[<-|[<-|[]]]]]]]; reflexivity.
Qed.

(** X11.  For a text of characters below code point 256, which is what
    [string] holds, the six indicators that are plain words (homebrew,
    launchd, xcode-select, softwareupdate, /Applications/, darwin) are
    substring tests without regard to letter case: such an indicator is
    recorded for the text exactly when the lower-cased text contains the
    lower-cased word. *)
Theorem X11_plain_indicators_are_substring_tests (pattern content : string) :
  In pattern PLAIN_INDICATORS ->
  (In pattern (macos_indicators_found content)
   <-> pystr.contains (pystr.lower pattern) (pystr.lower content) = true).
Proof.
  intros Hin.
  assert (Hsearch : re.search pattern content
                    = pystr.contains (pystr.lower pattern) (pystr.lower content)).
  { unfold re.search. rewrite (plain_indicator_compiles pattern Hin).
    apply search_items_literal. }
  unfold macos_indicators_found.
  rewrite (filter_In (fun p => re.search p content)), Hsearch.
  split; [tauto|]. intros Hc. split; [|done].
  unfold PLAIN_INDICATORS in Hin. by apply filter_In in Hin as [Hin _].
Qed.

Lemma X11_witness :
  In "/Applications/" (macos_indicators_found "dest: /applications/Tool")
  <-> pystr.contains "/applications/" "dest: /applications/tool" = true.
Proof.
  apply (X11_plain_indicators_are_substring_tests "/Applications/"
           "dest: /applications/Tool").
  vm_compute. tauto.
Defined.

End DarwinExtras.

(* ===================================================================== *)
(** ** Further properties of the model validator *)
(* ===================================================================== *)

Section ModelExtras.
Import validate_models.

(** An entry that adds no error passes every check and has a new name. *)
Lemma check_model_clean (idx : nat) (model : yaml) (seen seen' : gset string) :
  check_model idx model seen = (seen', []) ->
  exists name,
    valid_model name model /\ (name ∉ seen) /\ (seen' = {[ name ]} ∪ seen).
Proof.
  unfold check_model.
  destruct model as [| | | | |m]; try discriminate.
  destruct (dict_get "name" m) as [[| | |name| |]|] eqn:Hname; try discriminate.
  destruct (String.eqb (pystr.strip name) "") eqn:Hstrip; [discriminate|].
  destruct (decide (name ∈ seen)) as [Hin|Hnotin]; [discriminate|].
  cbn [app]. intros Heq. exists name.
  assert (Hstate : match dict_get "state" m with
                   | Some state => valid_state state = true
                   | None => True
                   end).
  { destruct (dict_get "state" m) as [state|]; [|done].
    destruct (valid_state state); [done | discriminate]. }
  split; [|split; [done | congruence]].
  exists m. repeat split; try done. by apply String.eqb_neq.
Qed.

Lemma check_models_clean (models : list yaml) (idx : nat) (seen : gset string) :
  check_models idx models seen = []
  <-> exists names,
        Forall2 valid_model names models /\ NoDup names
        /\ forall n, n ∈ names -> n ∉ seen.
Proof.
  split.
  - revert idx seen. induction models as [|model rest IH]; intros idx seen.
    + intros _. exists []. repeat split; [constructor | constructor | set_solver].
    + cbn [check_models].
      destruct (check_model idx model seen) as [seen' errors] eqn:Hstep.
      intros [-> Hrest]%app_eq_nil.
      destruct (check_model_clean _ _ _ _ Hstep) as (name & Hvalid & Hnew & ->).
      destruct (IH _ _ Hrest) as (names & Hall & Hnd & Hfresh).
      exists (name :: names). split; [by constructor|]. split.
      * apply NoDup_cons. split; [|done].
        intros Hin. specialize (Hfresh name Hin). set_solver.
      * intros n [-> | Hn]%elem_of_cons; [done|].
        specialize (Hfresh n Hn). set_solver.
  - intros (names & Hall & Hnd & Hfresh).
    rewrite (check_models_valid models names) by done.
    by rewrite repeated_fresh.
Qed.

(** X12.  The validator accepts a list exactly when every entry is a
    mapping with a non-blank string name and, if it has one, a state that
    is present or absent, and no two entries have the same name. *)
Theorem X12_accepted_lists (models : list yaml) :
  validate_model_structure (YList models) = []
  <-> exists names, Forall2 valid_model names models /\ NoDup names.
Proof.
  rewrite validate_list, check_models_clean. split.
  - intros (names & Hall & Hnd & _). by exists names.
  - intros (names & Hall & Hnd). exists names. by repeat split.
Qed.

Lemma repeated_count (names : list string) (seen : gset string) :
  length (repeated seen names) + size (list_to_set names ∪ seen)
  = length names + size seen.
Proof.
  revert seen. induction names as [|n names IH]; intros seen.
  - rewrite list_to_set_nil, (left_id_L ∅ (∪)). reflexivity.
  - assert (Hset : list_to_set (n :: names) ∪ seen
                   =@{gset string} list_to_set names ∪ ({[ n ]} ∪ seen))
      by set_solver.
    rewrite Hset. cbn [repeated length].
    specialize (IH ({[ n ]} ∪ seen)).
    destruct (decide (n ∈ seen)) as [Hin|Hnotin].
    + rewrite (subseteq_union_1_L {[ n ]} seen) in IH |- *
        by (by apply singleton_subseteq_l).
      cbn [app length]. lia.
    + rewrite (size_union {[ n ]} seen) in IH
        by (by apply disjoint_singleton_l).
      rewrite size_singleton in IH. cbn [app]. lia.
Qed.

(** X13.  On a list of entries that pass the checks on their own, every
    error is a duplicate-name error and there is one for each repetition:
    the number of errors is the number of entries less the number of
    different names. *)
Theorem X13_one_error_per_repetition
    (models : list yaml) (names : list string) :
  Forall2 valid_model names models ->
  length (validate_model_structure (YList models))
  + size (list_to_set names : gset string)
  = length models
  /\ Forall (fun e => exists n, n ∈ names /\ e = duplicate_error n)
       (validate_model_structure (YList models)).
Proof.
  intros Hall. rewrite validate_list, (check_models_valid models names) by done.
  split.
  - rewrite length_map, <- (Forall2_length _ _ _ Hall).
    pose proof (repeated_count names ∅) as Hcount.
    rewrite size_empty in Hcount.
    replace (list_to_set names ∪ ∅) with (list_to_set names : gset string)
      in Hcount by set_solver.
    lia.
  - apply Forall_forall. intros e (n & -> & Hn)%list_elem_of_fmap.
    exists n. split; [|done].
    clear Hall. revert Hn. generalize (∅ : gset string).
    induction names as [|x names IH]; intros seen; cbn [repeated].
    + by intros ?%elem_of_nil.
    + intros [Hx | Hrest]%elem_of_app.
      * destruct (decide (x ∈ seen)); [|by apply elem_of_nil in Hx].
        apply list_elem_of_singleton in Hx as ->. by left.
      * right. by eapply IH.
Qed.

End ModelExtras.

Section ModelExtrasMore.
Import validate_models.

Lemma X12_witness :
  validate_model_structure (YList [sample.llama_present; sample.nomic]) = [].
Proof.
  apply X12_accepted_lists. exists ["llama3:8b"; "nomic-embed-text"]. split.
  - repeat constructor;
      [apply sample_llama_present_valid | apply sample_nomic_valid].
  - apply NoDup_cons. split; [set_solver | apply NoDup_singleton].
Defined.

Lemma X13_witness :
  length (validate_model_structure
            (YList [sample.llama; sample.nomic; sample.llama_present; sample.llama]))
  + size (list_to_set ["llama3:8b"; "nomic-embed-text"; "llama3:8b"; "llama3:8b"]
          : gset string)
  = 4.
Proof.
  apply (X13_one_error_per_repetition
           [sample.llama; sample.nomic; sample.llama_present; sample.llama]
           ["llama3:8b"; "nomic-embed-text"; "llama3:8b"; "llama3:8b"]).
  repeat constructor;
    auto using sample_llama_valid, sample_nomic_valid, sample_llama_present_valid.
Defined.

(** X14.  An entry with a usable name and a [state] that is not exactly
    the string present or absent gets the invalid-state error and no other,
    and its name counts as seen all the same: a later entry of that name,
    valid on its own, gets the duplicate error. *)
Theorem X14_invalid_state_keeps_the_name
    (m : dict) (name : string) (state later : yaml) :
  dict_get "name" m = Some (YStr name) ->
  pystr.strip name <> "" ->
  dict_get "state" m = Some state ->
  valid_state state = false ->
  valid_model name later ->
  validate_model_structure (YList [YMap m]) = [state_error name state]
  /\ validate_model_structure (YList [YMap m; later])
     = [state_error name state; duplicate_error name].
Proof.
  intros Hname Hstrip%String.eqb_neq Hstate Hbad Hlater.
  assert (Hstep : check_model 0 (YMap m) ∅
                  = ({[ name ]} ∪ ∅, [state_error name state])).
  { unfold check_model. rewrite Hname, Hstrip, Hstate, Hbad.
    by rewrite decide_False by set_solver. }
  rewrite !validate_list. cbn [check_models]. rewrite Hstep.
  split; [reflexivity|].
  rewrite (check_model_valid 1 later name) by done.
  by rewrite decide_True by set_solver.
Qed.

Lemma X14_witness :
  validate_model_structure (YList [YMap sample_more.maybe_model])
  = ["Model 'x': 'state' must be 'present' or 'absent', got 'maybe'"].
Proof.
  apply (X14_invalid_state_keeps_the_name sample_more.maybe_model "x"
           (YStr "maybe") (YMap [("name", YStr "x")]));
    try reflexivity; try discriminate.
  exists [("name", YStr "x")]. by repeat split.
Defined.

(** X15.  The model validator exits with code 0 exactly when the
    variables file loads to a non-empty mapping whose [ollama_models], the
    empty list if the key is absent, is a list of entries that pass every
    check and bear different names. *)
Theorem X15_exit_code_zero (f : vars_file) :
  main f = Ret 0%Z
  <-> exists d models names,
        f = VarsLoaded (YMap d) /\ d <> []
        /\ default (YList []) (dict_get "ollama_models" d) = YList models
        /\ Forall2 valid_model names models /\ NoDup names.
Proof.
  split.
  - destruct f as [|e|vars_data]; try discriminate.
    unfold main. destruct (negb (truthy vars_data)) eqn:Htruthy; [discriminate|].
    destruct vars_data as [| | | | |d]; try discriminate.
    cbn [get_models mbind py_bind mret py_ret].
    destruct (validate_model_structure _) eqn:Herrors; [|discriminate].
    intros _.
    destruct (default (YList []) (dict_get "ollama_models" d))
      as [| | | |models|] eqn:Hmodels; try discriminate.
    rewrite validate_list in Herrors.
    apply check_models_clean in Herrors as (names & Hall & Hnd & _).
    exists d, models, names. repeat split; try done.
    intros ->. discriminate Htruthy.
  - intros (d & models & names & -> & Hd & Hmodels & Hall & Hnd).
    unfold main.
    replace (negb (truthy (YMap d))) with false by by destruct d.
    cbn [get_models mbind py_bind mret py_ret]. rewrite Hmodels.
    rewrite validate_list.
    replace (check_models 0 models ∅) with (@nil string); [reflexivity|].
    symmetry. apply check_models_clean. exists names. by repeat split.
Qed.

Lemma X15_witness :
  main (VarsLoaded (YMap sample.vars_without_models)) = Ret 0%Z.
Proof.
  apply X15_exit_code_zero.
  exists sample.vars_without_models, [], [].
  repeat split; [discriminate | constructor | constructor].
Defined.

Lemma check_model_at_most_two (idx : nat) (model : yaml) (seen : gset string) :
  length (snd (check_model idx model seen)) <= 2.
Proof.
  unfold check_model.
  destruct model as [| | | | |m]; cbn; try lia.
  destruct (dict_get "name" m) as [[| | |name| |]|]; cbn; try lia.
  destruct (String.eqb (pystr.strip name) ""); cbn; [lia|].
  rewrite length_app.
  destruct (decide (name ∈ seen)), (dict_get "state" m) as [state|];
    try destruct (negb (valid_state state)); cbn; lia.
Qed.

(** X16.  No list makes the validator report more than two errors for
    one entry (a duplicate name and an invalid state). *)
Theorem X16_at_most_two_errors_per_entry (models : list yaml) :
  length (validate_model_structure (YList models)) <= 2 * length models.
Proof.
  rewrite validate_list. generalize 0 at 1. generalize (∅ : gset string).
  induction models as [|model rest IH]; intros seen idx; [cbn; lia|].
  cbn [check_models length].
  pose proof (check_model_at_most_two idx model seen) as Hstep.
  destruct (check_model idx model seen) as [seen' errors].
  cbn [snd] in Hstep. rewrite length_app.
  specialize (IH seen' (S idx)). lia.
Qed.

(** X17.  The index in a message is the position of the entry in the
    list, counted from 0: an entry that is not a mapping, wherever it
    stands and whatever stands around it, is reported with its own
    position. *)
Theorem X17_index_is_the_position (before after : list yaml) (entry : yaml) :
  (forall m, entry <> YMap m) ->
  In ("Model at index " +:+ pystr.of_nat (length before)
      +:+ " must be a dict, got " +:+ type_name entry)
    (validate_model_structure (YList (before ++ entry :: after))).
Proof.
  intros Hentry. rewrite validate_list.
  change (length before) with (0 + length before).
  generalize 0. generalize (∅ : gset string).
  induction before as [|model rest IH]; intros seen idx.
  - cbn [app check_models length]. rewrite Nat.add_0_r.
    assert (Hstep : check_model idx entry seen
                    = (seen, [not_a_dict_error idx entry])).
    { destruct entry as [| | | | |m]; try reflexivity. by destruct (Hentry m). }
    rewrite Hstep. by left.
  - cbn [app check_models length].
    destruct (check_model idx model seen) as [seen' errors].
    apply in_or_app. right.
    replace (idx + S (length rest)) with (S idx + length rest) by lia.
    apply IH.
Qed.

Lemma X17_witness :
  In "Model at index 2 must be a dict, got str"
    (validate_model_structure
       (YList [sample.llama; YMap sample.blank_model; YStr "mistral:7b";
               sample.nomic])).
Proof.
  apply (X17_index_is_the_position
           [sample.llama; YMap sample.blank_model] [sample.nomic]
           (YStr "mistral:7b")).
  discriminate.
Defined.

End ModelExtrasMore.

(* ===================================================================== *)
(** ** Further properties of the role-structure validator *)
(* ===================================================================== *)

Section StructureExtras.
Import validate_structure.

Lemma some_match_iff_existsb {X : Type} (p : X -> bool) (l : list X) :
  (0 <? length (List.filter p l)) = existsb p l.
Proof.
  induction l as [|x l IH]; [reflexivity|].
  cbn [List.filter existsb]. destruct (p x); [reflexivity | exact IH].
Qed.

Lemma flat_map_nil {X Y : Type} (g : X -> list Y) (l : list X) :
  flat_map g l = [] <-> forall x, In x l -> g x = [].
Proof.
  induction l as [|x l IH]; [by split|].
  cbn [flat_map]. split.
  - intros [Hx Hl]%app_eq_nil y [<- | Hy]; [done|]. by apply IH.
  - intros H. rewrite (H x) by by left. apply IH. intros y Hy. apply H. by right.
Qed.

(** What [validate_task_files] adds for one entry of the roles directory. *)
Lemma check_role_tasks_eq (role_name : string) (role_dir : fsnode) :
  check_role_tasks role_name role_dir
  = if fs.is_dir role_dir && mixes_extensions role_dir
    then ["Role '" +:+ role_name
          +:+ "' mixes .yml and .yaml extensions in tasks/"]
    else [].
Proof.
  unfold check_role_tasks, mixes_extensions.
  destruct role_dir as [|entries]; [reflexivity|]. cbn [fs.is_dir negb andb].
  destruct (fs.child (Some (Dir entries)) "tasks") as [[|tasks]|];
    try reflexivity.
  cbn [fs.glob]. by rewrite !some_match_iff_existsb.
Qed.

Lemma optional_dir_clean (role_name : string) (role_dir : fsnode)
    (dir_name expected_file : string) :
  (if fs.exists_ (fs.child (Some role_dir) dir_name)
      && fs.exists_dir (fs.child (Some role_dir) dir_name)
   then if negb (fs.exists_ (fs.child (fs.child (Some role_dir) dir_name)
                               expected_file))
        then ["Role '" +:+ role_name +:+ "' has " +:+ dir_name
              +:+ "/ directory " +:+ "but missing " +:+ expected_file]
        else []
   else []) = []
  <-> negb (fs.exists_dir (fs.child (Some role_dir) dir_name))
      || fs.exists_ (fs.child (fs.child (Some role_dir) dir_name) expected_file)
      = true.
Proof.
  destruct (fs.child (Some role_dir) dir_name) as [[|entries]|];
    cbn [fs.exists_ fs.exists_dir fs.is_dir andb negb orb]; try done.
  by destruct (fs.exists_ _).
Qed.

Lemma check_role_clean (role_name : string) (role_dir : fsnode) :
  check_role role_name role_dir = []
  <-> has_tasks_main role_dir = true
      /\ forallb (optional_dir_ok role_dir)
           ["defaults"; "vars"; "handlers"; "meta"] = true.
Proof.
  unfold check_role, expected_files, has_tasks_main, optional_dir_ok.
  cbn [flat_map forallb]. rewrite app_nil_r, andb_true_r.
  rewrite !andb_true_iff.
  rewrite <- !(optional_dir_clean role_name role_dir _ "main.yml").
  split.
  - intros [Hmain [Hd [Hv [Hh Hm]%app_eq_nil]%app_eq_nil]%app_eq_nil]%app_eq_nil.
    split; [by destruct (fs.exists_ _)|]. by repeat split.
  - intros [Hmain [Hd [Hv [Hh Hm]]]].
    rewrite Hmain, Hd, Hv, Hh, Hm. reflexivity.
Qed.

(** X18.  Given a roles directory, [validate_task_files] returns one
    mixed-extension error for each entry that is a directory and whose
    [tasks/] holds a name ending in [.yml] and a name ending in [.yaml], in
    the order of the listing, and nothing else. *)
Theorem X18_mixed_extensions
    (roles_dir : Path) (entries : list (string * fsnode)) :
  validate_task_files roles_dir (Some (Dir entries))
  = Ret (map (fun e => mixed_error (fst e))
           (List.filter (fun e => fs.is_dir (snd e) && mixes_extensions (snd e))
              entries)).
Proof.
  unfold validate_task_files. cbn [mret py_ret]. f_equal.
  induction entries as [|e rest IH]; [reflexivity|].
  cbn [flat_map List.filter]. rewrite IH, check_role_tasks_eq.
  by destruct (fs.is_dir (snd e) && mixes_extensions (snd e)).
Qed.

(** X19.  Without a roles directory [validate_role_structure] returns its
    not-found error, yet [main] never reports it: [validate_task_files]
    then lists the missing directory and raises.  [main] returns an exit
    code exactly when the roles path is a directory. *)
Theorem X19_missing_roles_directory (roles_dir : Path) (node : option fsnode) :
  validate_role_structure roles_dir None
  = Ret ["Roles directory not found: " +:+ path.str roles_dir]
  /\ main roles_dir None = Raise FileNotFoundError
  /\ main roles_dir (Some File) = Raise NotADirectoryError
  /\ ((exists code, main roles_dir node = Ret code)
      <-> exists entries, node = Some (Dir entries)).
Proof.
  split; [reflexivity|]. split; [reflexivity|]. split; [reflexivity|].
  split.
  - destruct node as [[|entries]|]; intros [code Hcode];
      try discriminate Hcode. by exists entries.
  - intros [entries ->].
    pose proof (structure_all_errors_returns roles_dir entries) as Hret.
    unfold main.
    destruct (all_errors roles_dir (Some (Dir entries))) as [[|e errors]|];
      [by exists 0%Z | by exists 1%Z | discriminate].
Qed.

Lemma filter_filter_same {X : Type} (p : X -> bool) (l : list X) :
  List.filter p (List.filter p l) = List.filter p l.
Proof.
  induction l as [|x l IH]; [reflexivity|].
  cbn [List.filter]. destruct (p x) eqn:Hp; [|exact IH].
  cbn [List.filter]. by rewrite Hp, IH.
Qed.

(** X20.  What lies in the roles directory and is not a directory (a
    README, say) has no effect on the errors. *)
Theorem X20_files_among_the_roles_are_ignored
    (roles_dir : Path) (entries : list (string * fsnode)) :
  all_errors roles_dir (Some (Dir entries))
  = all_errors roles_dir
      (Some (Dir (List.filter (fun e => fs.is_dir (snd e)) entries))).
Proof.
  unfold all_errors, validate_role_structure, validate_task_files.
  rewrite filter_filter_same.
  assert (Htasks :
    flat_map (fun e => check_role_tasks (fst e) (snd e)) entries
    = flat_map (fun e => check_role_tasks (fst e) (snd e))
        (List.filter (fun e => fs.is_dir (snd e)) entries)).
  { induction entries as [|[n d] rest IH]; [reflexivity|].
    cbn [flat_map List.filter fst snd]. rewrite IH.
    destruct d as [|sub]; reflexivity. }
  by rewrite Htasks.
Qed.

(** X21.  Given a roles directory, the validator exits with code 0 exactly
    when there is at least one role directory and every role directory has
    [tasks/main.yml], has a [main.yml] in each of [defaults], [vars],
    [handlers] and [meta] that exists as a directory, and does not mix the
    two extensions in [tasks/]. *)
Theorem X21_exit_code_zero (roles_dir : Path) (entries : list (string * fsnode)) :
  main roles_dir (Some (Dir entries)) = Ret 0%Z
  <-> (exists e, In e entries /\ fs.is_dir (snd e) = true)
      /\ (forall e, In e entries -> fs.is_dir (snd e) = true ->
            has_tasks_main (snd e) = true
            /\ forallb (optional_dir_ok (snd e))
                 ["defaults"; "vars"; "handlers"; "meta"] = true
            /\ mixes_extensions (snd e) = false).
Proof.
  unfold main, all_errors, validate_role_structure, validate_task_files.
  set (role_dirs := List.filter (fun e => fs.is_dir (snd e)) entries).
  assert (Hin : forall e, In e role_dirs <-> In e entries /\ fs.is_dir (snd e) = true)
    by (intros e; apply filter_In).
  destruct role_dirs as [|r rs] eqn:Hdirs.
  - split; [discriminate|]. intros [[e He] _]. by apply Hin in He.
  - cbn [mbind py_bind mret py_ret]. rewrite <- Hdirs in *.
    destruct (_ ++ _) as [|err errs] eqn:Herrors.
    + split; [intros _|done].
      apply app_eq_nil in Herrors as [Hroles Htasks].
      split.
      * exists r. apply Hin. rewrite Hdirs. by left.
      * intros e He Hdir.
        pose proof (proj1 (flat_map_nil _ _) Hroles e (proj2 (Hin e) (conj He Hdir)))
          as Hrole.
        pose proof (proj1 (flat_map_nil _ _) Htasks e He) as Htask.
        cbn beta in Hrole, Htask.
        apply check_role_clean in Hrole as [Hmain Hopt].
        rewrite check_role_tasks_eq, Hdir in Htask. cbn [andb] in Htask.
        repeat split; try done. by destruct (mixes_extensions (snd e)).
    + split; [discriminate|]. intros [_ Hall]. exfalso.
      assert (Hnil : flat_map (fun e => check_role (fst e) (snd e)) role_dirs
                     ++ flat_map (fun e => check_role_tasks (fst e) (snd e)) entries
                     = []).
      { assert (Hroles : flat_map (fun e => check_role (fst e) (snd e)) role_dirs
                         = []).
        { apply flat_map_nil. intros e [He Hdir]%Hin.
          apply check_role_clean. by destruct (Hall e He Hdir) as (? & ? & _). }
        assert (Htasks : flat_map (fun e => check_role_tasks (fst e) (snd e))
                           entries = []).
        { apply flat_map_nil. intros e He. rewrite check_role_tasks_eq.
          destruct (fs.is_dir (snd e)) eqn:Hdir; [|reflexivity].
          by destruct (Hall e He Hdir) as (_ & _ & ->). }
        by rewrite Hroles, Htasks. }
      congruence.
Qed.

End StructureExtras.

Lemma X21_witness :
  validate_structure.main sample.roles_dir
    (Some (Dir [ ("README.md", File);
                 ("tool", sample_more.role_with_tasks_only) ])) = Ret 0%Z.
Proof.
  apply X21_exit_code_zero. split.
  - exists ("tool", sample_more.role_with_tasks_only). split; [|reflexivity].
    right. by left.
  - intros e [<- | [<- | []]]; [discriminate|]. intros _. by repeat split.
Defined.
